(** * Transformer_using_pytorch: data pipeline and encoder stack

    A shallow embedding of [src/dataset.py] and [src/encoder.py].

    Conventions of the embedding:
    - a Python [dict] with string keys is a [gmap string _];
    - a Python [set] of strings is a [gset string];
    - a one-dimensional [torch.long] tensor is a [list Z], a batch-major
      two-dimensional one is a [list (list Z)] (one inner list per row);
    - a Python exception is a value of [exn]; code that may raise returns a
      [result]; code that also prints, touches the file system or calls
      [sys.exit] lives in the monad [M]. *)

From Stdlib Require Import Ascii.
From stdpp Require Import gmap strings list.

Local Open Scope string_scope.
Local Open Scope Z_scope.
Local Open Scope list_scope.

(** ** Exceptions and results *)

(** The subclasses of Python's [Exception] that the code can meet.
    [SystemExit] is not one of them: it derives from [BaseException] and is
    an outcome of its own (see [outcome]). *)
Inductive exn : Type :=
  | FileNotFoundError (msg : string)
  | KeyError (key : string)
  | TypeError (msg : string)
  | AttributeError (name : string)
  | IndexError (msg : string)
  | RuntimeError (msg : string)
  | OSError (msg : string)
  | OtherException (msg : string).

Inductive result (A : Type) : Type :=
  | Ok (a : A)
  | Raise (e : exn).
Arguments Ok {A} a.
Arguments Raise {A} e.

#[global] Instance result_ret : MRet result := λ A a, Ok a.
#[global] Instance result_bind : MBind result := λ A B f r,
  match r with
  | Ok a => f a
  | Raise e => Raise e
  end.
#[global] Instance result_fmap : FMap result := λ A B f r,
  match r with
  | Ok a => Ok (f a)
  | Raise e => Raise e
  end.

(** ** Corpus records *)

(** A field of a corpus record holds a string, or (under the key
    ['translation']) a dictionary of strings. *)
Inductive value : Type :=
  | VStr (s : string)
  | VDict (d : gmap string string).

Abbreviation record := (gmap string value).

(** [d[k]] on a record. *)
Definition getitem (d : record) (k : string) : result value :=
  match d !! k with
  | Some v => Ok v
  | None => Raise (KeyError k)
  end.

(** [v[k]] where [v] was itself read from a record: a dictionary is looked
    up; indexing a [str] with a [str] is a [TypeError]. *)
Definition value_getitem (v : value) (k : string) : result value :=
  match v with
  | VDict d =>
      match d !! k with
      | Some s => Ok (VStr s)
      | None => Raise (KeyError k)
      end
  | VStr _ => Raise (TypeError "string indices must be integers")
  end.

(** ** Tokenizer *)

(** What [encode] hands back: [PreTrainedTokenizerFast] returns a plain
    [list]; a raw [tokenizers.Tokenizer] returns an [Encoding] object whose
    ids are under [.ids]. *)
Inductive encoding : Type :=
  | EncList (ids : list Z)
  | EncObj (ids : list Z).

(** The attributes of the tokenizer object that the code reads or patches.
    [tokenize] is the subword model itself (external, pre-trained);
    [returns_list] tells which of the two [encoding] shapes the class of the
    object produces; [convert_id] is [convert_ids_to_tokens] on one id. *)
Record Tokenizer : Type := mkTokenizer {
  pad_token_id : option Z;
  bos_token_id : option Z;
  eos_token_id : option Z;
  pad_token : option string;
  bos_token : option string;
  eos_token : option string;
  convert_id : Z → option string;
  tokenize : string → list Z;
  returns_list : bool
}.

(** [tokenizer.encode(text, add_special_tokens=False, max_length=n,
    truncation=True)]: no special token is added and the ids past the
    first [n] are dropped (truncation on the right).  A text that is not a
    string is refused.  What the library does with a negative [n] is not
    part of the model: the properties below are stated for [n >= 0]. *)
Definition encode (tok : Tokenizer) (text : value) (max_length : Z)
  : result encoding :=
  match text with
  | VStr s =>
      let ids := take (Z.to_nat max_length) (tokenize tok s) in
      Ok (if returns_list tok then EncList ids else EncObj ids)
  | VDict _ => Raise (TypeError "text input must be of type str")
  end.

(** ** TranslationDataset *)

Record TranslationDataset : Type := mkTranslationDataset {
  data : list record;
  tokenizer : Tokenizer;
  max_length : Z;
  lang_keys : string * string
}.

(** [TranslationDataset.__init__] with its defaults. *)
Definition TranslationDataset_init (data : list record) (tok : Tokenizer)
    (max_length : option Z) (lang_keys : option (string * string))
  : TranslationDataset :=
  mkTranslationDataset data tok (default 512 max_length)
    (default ("en", "de") lang_keys).

Definition TranslationDataset_len (ds : TranslationDataset) : nat :=
  length (data ds).

(** One tokenized example, the dictionary [{'src': ..., 'tgt': ...}]. *)
Record example : Type := mkExample {
  src : list Z;
  tgt : list Z
}.

(** Lines 23-28 of [__getitem__]: the two texts of a record, nested under
    ['translation'] or flat. *)
Definition texts_of (keys : string * string) (item : record)
  : result (value * value) :=
  if decide (is_Some (item !! "translation")) then
    tr ← getitem item "translation";
    src_text ← value_getitem tr keys.1;
    tgt_text ← value_getitem tr keys.2;
    mret (src_text, tgt_text)
  else
    src_text ← getitem item keys.1;
    tgt_text ← getitem item keys.2;
    mret (src_text, tgt_text).

(** Lines 30-59 of [__getitem__]: encode with truncation, then frame. *)
Definition encode_pair (ds : TranslationDataset) (src_text tgt_text : value)
  : result example :=
  src_encoding ← encode (tokenizer ds) src_text (max_length ds - 2);
  tgt_encoding ← encode (tokenizer ds) tgt_text (max_length ds - 2);
  '(src_token_ids, tgt_token_ids) ←
    match src_encoding with
    | EncList s =>
        (* isinstance(src_encoding, list): the target is taken as it is *)
        match tgt_encoding with
        | EncList t => Ok (s, t)
        | EncObj _ =>
            Raise (TypeError "can only concatenate list (not Encoding) to list")
        end
    | EncObj s =>
        match tgt_encoding with
        | EncObj t => Ok (s, t)
        | EncList _ => Raise (AttributeError "ids")
        end
    end;
  let bos_id := default 1 (bos_token_id (tokenizer ds)) in
  let eos_id := default 2 (eos_token_id (tokenizer ds)) in
  let src_final_tokens := [bos_id] ++ src_token_ids ++ [eos_id] in
  let tgt_final_tokens := [bos_id] ++ tgt_token_ids ++ [eos_id] in
  mret (mkExample src_final_tokens tgt_final_tokens).

(** The body of [__getitem__] once [item = self.data[idx]] is known. *)
Definition transform (ds : TranslationDataset) (item : record)
  : result example :=
  '(src_text, tgt_text) ← texts_of (lang_keys ds) item;
  encode_pair ds src_text tgt_text.

(** [self.data[idx]] for a list: negative indices count from the end, an
    index out of range raises [IndexError]. *)
Definition list_getitem {A} (l : list A) (idx : Z) : result A :=
  let i := if decide (idx < 0) then idx + Z.of_nat (length l) else idx in
  if decide (i < 0) then Raise (IndexError "list index out of range")
  else match l !! Z.to_nat i with
       | Some x => Ok x
       | None => Raise (IndexError "list index out of range")
       end.

Definition TranslationDataset_getitem (ds : TranslationDataset) (idx : Z)
  : result example :=
  item ← list_getitem (data ds) idx;
  transform ds item.

(** ** collate_fn *)







(** ** The process: standard output, the file system, exit *)

(** One constructor per [print] call of [create_dataloaders]; the values
    interpolated into an f-string are the constructor's arguments. *)
Inductive message : Type :=
  | MsgCheckingCache
  | MsgFoundCache (path : string)
  | MsgDeletingCache
  | MsgCacheDeleted
  | MsgErrorDeletingCache (e : exn)
  | MsgManualHint
  | MsgCacheNotFound
  | MsgLoadingTokenizer (path : string)
  | MsgLoadingDataset (name : string)
  | MsgLeakageCheck
  | MsgBangs
  | MsgLeakageConfirmed
  | MsgFoundLeaked (n : nat)
  | MsgExampleLeaked (de : value)
  | MsgProceedFiltering
  | MsgFiltered (n : Z)
  | MsgPassedAfterFiltering
  | MsgPassed
  | MsgUsingSubset (n : Z)
  | MsgUsing (n_train n_val : nat)
  | MsgFatal (e : exn).

(** What the function changes: the lines printed so far and the set of
    paths that exist. *)
Record state : Type := mkState {
  stdout : list message;
  fs : gset string
}.

(** How a call ends: it returns, it raises an [Exception], or the process
    exits ([sys.exit], a [SystemExit] that no [except Exception] catches). *)
Inductive outcome (A : Type) : Type :=
  | Returned (a : A)
  | Raised (e : exn)
  | Exited (status : Z).
Arguments Returned {A} a.
Arguments Raised {A} e.
Arguments Exited {A} status.

Definition M (A : Type) : Type := state → outcome A * state.

#[global] Instance M_ret : MRet M := λ A a s, (Returned a, s).
#[global] Instance M_bind : MBind M := λ A B f m s,
  match m s with
  | (Returned a, s') => f a s'
  | (Raised e, s') => (Raised e, s')
  | (Exited c, s') => (Exited c, s')
  end.

Definition print (m : message) : M unit :=
  λ s, (Returned (), mkState (stdout s ++ [m]) (fs s)).

Definition raise {A} (e : exn) : M A := λ s, (Raised e, s).

Definition sys_exit {A} (status : Z) : M A := λ s, (Exited status, s).

Definition lift {A} (r : result A) : M A :=
  match r with
  | Ok a => mret a
  | Raise e => raise e
  end.

(** [try: body except Exception as e: handler e]. *)
Definition try_except {A} (body : M A) (handler : exn → M A) : M A :=
  λ s, match body s with
       | (Raised e, s') => handler e s'
       | r => r
       end.

(** [if b: m] *)
Definition when (b : bool) (m : M unit) : M unit :=
  if b then m else mret ().

(** *** Paths *)

Definition starts_with_slash (s : string) : bool :=
  match s with
  | String c _ => bool_decide (c = "/"%char)
  | EmptyString => false
  end.

Definition ends_with_slash (s : string) : bool :=
  starts_with_slash (String.rev s).

(** [posixpath.join(a, b)]. *)
Definition join2 (path b : string) : string :=
  if starts_with_slash b then b
  else if bool_decide (path = "") || ends_with_slash path then path +:+ b
  else path +:+ "/" +:+ b.

(** [os.path.join(a, *p)]. *)
Definition os_path_join (a : string) (p : list string) : string :=
  foldl join2 a p.

Definition os_path_exists (path : string) : M bool :=
  λ s, (Returned (bool_decide (path ∈ fs s)), s).

(** [q] is [p] or lies below the directory [p]. *)
Definition under (p q : string) : bool :=
  bool_decide (q = p) || String.prefix (p +:+ "/") q.

(** ** The environment of a call *)

(** Everything external that [create_dataloaders] consults:
    [os.environ], [os.path.expanduser], the directory of the module file,
    whether [shutil.rmtree] would fail, the constructor
    [PreTrainedTokenizerFast(tokenizer_file=...)], the corpus source behind
    [load_dataset(name, split=...)] and [Dataset.shuffle(seed=...)]. *)
Record World : Type := mkWorld {
  environ : gmap string string;
  expanduser : string → string;
  module_dir : string;
  rmtree_error : option exn;
  PreTrainedTokenizerFast : string → result Tokenizer;
  load_dataset : string → string → result (list record);
  shuffle : Z → list record → list record
}.

(** [shutil.rmtree(path)]: on success the path and everything below it are
    gone. *)
Definition shutil_rmtree (w : World) (path : string) : M unit :=
  match rmtree_error w with
  | Some e => raise e
  | None =>
      λ s, (Returned (),
            mkState (stdout s) (filter (λ q, under path q = false) (fs s)))
  end.

(** ** Loaders *)

Record DistributedSampler : Type := mkDistributedSampler {
  num_replicas : Z;
  sampler_rank : Z;
  sampler_shuffle : bool
}.

(** A [DataLoader] as configured; [collate_pad] is the [pad_token_id] that
    [partial(collate_fn, pad_token_id=pad_id)] has fixed. *)
Record DataLoader : Type := mkDataLoader {
  dataset : TranslationDataset;
  loader_batch_size : Z;
  collate_pad : option Z;
  sampler : option DistributedSampler;
  loader_shuffle : bool;
  loader_num_workers : Z;
  pin_memory : bool
}.


(** A configuration attribute that is absent is [None] here, and reading it
    raises [AttributeError]. *)
Record ModelConfig : Type := mkModelConfig {
  max_seq_len : option Z
}.

Record TrainingConfig : Type := mkTrainingConfig {
  batch_size : option Z;
  num_workers : option Z
}.

Definition getattr {A} (o : option A) (name : string) : result A :=
  match o with
  | Some a => Ok a
  | None => Raise (AttributeError name)
  end.

(** The arguments of [create_dataloaders].  [dataset_config] and
    [val_split_fraction] are accepted by the function and never read; they
    are left out. *)
Record Args : Type := mkArgs {
  model_config : ModelConfig;
  training_config : TrainingConfig;
  tokenizer_path : string;
  use_ddp : bool;
  rank : Z;
  world_size : Z;
  dataset_name : string;
  subset_size : option Z;
  seed : Z
}.

(** The keyword defaults of the signature. *)
Definition default_args (mc : ModelConfig) (tc : TrainingConfig)
    (path : string) : Args :=
  mkArgs mc tc path false 0 1 "bentrevett/multi30k" None 42.

(** ** create_dataloaders *)

(** *** Cache clearing (rank 0 only) *)

Definition clear_cache (w : World) : M unit :=
  print MsgCheckingCache;;
  let hf_cache_home :=
    default (expanduser w "~/.cache/huggingface") (environ w !! "HF_HOME") in
  let datasets_cache_path := os_path_join hf_cache_home ["datasets"] in
  let multi30k_cache_path :=
    os_path_join datasets_cache_path ["bentrevett___multi30k"] in
  found ← os_path_exists multi30k_cache_path;
  if found : bool then
    print (MsgFoundCache multi30k_cache_path);;
    print MsgDeletingCache;;
    try_except
      (shutil_rmtree w multi30k_cache_path;;
       print MsgCacheDeleted)
      (λ e, print (MsgErrorDeletingCache e);;
            print MsgManualHint)
  else
    print MsgCacheNotFound.

(** *** Special tokens *)

Definition set_pad_token_id (t : Tokenizer) (v : Z) : Tokenizer :=
  mkTokenizer (Some v) (bos_token_id t) (eos_token_id t) (pad_token t)
    (bos_token t) (eos_token t) (convert_id t) (tokenize t) (returns_list t).
Definition set_bos_token_id (t : Tokenizer) (v : Z) : Tokenizer :=
  mkTokenizer (pad_token_id t) (Some v) (eos_token_id t) (pad_token t)
    (bos_token t) (eos_token t) (convert_id t) (tokenize t) (returns_list t).
Definition set_eos_token_id (t : Tokenizer) (v : Z) : Tokenizer :=
  mkTokenizer (pad_token_id t) (bos_token_id t) (Some v) (pad_token t)
    (bos_token t) (eos_token t) (convert_id t) (tokenize t) (returns_list t).
Definition set_pad_token (t : Tokenizer) (v : option string) : Tokenizer :=
  mkTokenizer (pad_token_id t) (bos_token_id t) (eos_token_id t) v
    (bos_token t) (eos_token t) (convert_id t) (tokenize t) (returns_list t).
Definition set_bos_token (t : Tokenizer) (v : option string) : Tokenizer :=
  mkTokenizer (pad_token_id t) (bos_token_id t) (eos_token_id t) (pad_token t)
    v (eos_token t) (convert_id t) (tokenize t) (returns_list t).
Definition set_eos_token (t : Tokenizer) (v : option string) : Tokenizer :=
  mkTokenizer (pad_token_id t) (bos_token_id t) (eos_token_id t) (pad_token t)
    (bos_token t) v (convert_id t) (tokenize t) (returns_list t).

(** [tokenizer.convert_ids_to_tokens([i])[0]] for the id held in an
    attribute. *)
Definition token_of_id (t : Tokenizer) (i : option Z) : option string :=
  i ≫= convert_id t.

(** The six [if tokenizer.X is None: tokenizer.X = ...] statements, in the
    order of the source.  An attribute assignment is a plain store. *)
Definition ensure_special_tokens (t : Tokenizer) : Tokenizer :=
  let t := if pad_token_id t is None then set_pad_token_id t 3 else t in
  let t := if bos_token_id t is None then set_bos_token_id t 1 else t in
  let t := if eos_token_id t is None then set_eos_token_id t 2 else t in
  let t := if pad_token t is None
           then set_pad_token t (token_of_id t (pad_token_id t)) else t in
  let t := if bos_token t is None
           then set_bos_token t (token_of_id t (bos_token_id t)) else t in
  let t := if eos_token t is None
           then set_eos_token t (token_of_id t (eos_token_id t)) else t in
  t.

(** *** Leakage check *)

(** [s['de']] used as a set element or looked up in a set: it has to be
    present and hashable. *)
Definition de_of (s : record) : result string :=
  v ← getitem s "de";
  match v with
  | VStr t => Ok t
  | VDict _ => Raise (TypeError "unhashable type: 'dict'")
  end.

(** [{s['de'] for s in samples}] *)
Definition de_set (samples : list record) : result (gset string) :=
  list_to_set <$> mapM de_of samples.

(** [[x for x in l if p(x)]], and [Dataset.filter(p)]: the elements are
    visited in order and the first exception ends the traversal. *)
Fixpoint filter_with {A} (p : A → result bool) (l : list A)
  : result (list A) :=
  match l with
  | [] => Ok []
  | x :: l' =>
      b ← p x;
      r ← filter_with p l';
      Ok (if b : bool then x :: r else r)
  end.

(** [s['de'] in sentences] *)
Definition de_in (sentences : gset string) (s : record) : result bool :=
  d ← de_of s;
  Ok (bool_decide (d ∈ sentences)).

(** [example['de'] not in sentences] *)
Definition de_not_in (sentences : gset string) (s : record) : result bool :=
  negb <$> de_in sentences s.

(** Lines 138-160: the body of the second [if rank == 0:].  It returns the
    new binding of [val_data]. *)
Definition leakage_check (train_data val_data : list record)
  : M (list record) :=
  print MsgLeakageCheck;;
  train_de_sentences ← lift (de_set train_data);
  leaked_samples ← lift (filter_with (de_in train_de_sentences) val_data);
  if decide (0 < length leaked_samples)%nat then
    print MsgBangs;;
    print MsgLeakageConfirmed;;
    print MsgBangs;;
    print (MsgFoundLeaked (length leaked_samples));;
    first ← lift (list_getitem leaked_samples 0);
    first_de ← lift (getitem first "de");
    print (MsgExampleLeaked first_de);;
    print MsgProceedFiltering;;
    leaked_de_sentences_set ← lift (de_set leaked_samples);
    let original_val_size := length val_data in
    val_data ← lift (filter_with (de_not_in leaked_de_sentences_set) val_data);
    print (MsgFiltered (Z.of_nat original_val_size - Z.of_nat (length val_data)));;
    print MsgPassedAfterFiltering;;
    mret val_data
  else
    print MsgPassed;;
    mret val_data.

(** *** The [try] block (lines 131-176) *)

Definition is_rank0 (a : Args) : bool := bool_decide (rank a = 0).

Definition load_and_build (w : World) (a : Args) (tok : Tokenizer)
  : M (TranslationDataset * TranslationDataset) :=
  when (is_rank0 a) (print (MsgLoadingDataset (dataset_name a)));;
  train_data ← lift (load_dataset w (dataset_name a) "train");
  val_data ← lift (load_dataset w (dataset_name a) "validation");
  val_data ← (if is_rank0 a then leakage_check train_data val_data
              else mret val_data);
  train_data ←
    match subset_size a with
    | Some n =>
        if decide (n < Z.of_nat (length train_data)) then
          when (is_rank0 a) (print (MsgUsingSubset n));;
          mret (take (Z.to_nat n) (shuffle w (seed a + 1) train_data))
        else mret train_data
    | None => mret train_data
    end;
  when (is_rank0 a)
       (print (MsgUsing (length train_data) (length val_data)));;
  let train_data_list := train_data in
  let val_data_list := val_data in
  l1 ← lift (getattr (max_seq_len (model_config a)) "max_seq_len");
  let train_dataset := TranslationDataset_init train_data_list tok (Some l1) None in
  l2 ← lift (getattr (max_seq_len (model_config a)) "max_seq_len");
  let val_dataset := TranslationDataset_init val_data_list tok (Some l2) None in
  mret (train_dataset, val_dataset).

(** *** Before the [try] block (lines 85-129) *)

Definition tokenizer_file (w : World) : string :=
  os_path_join (module_dir w) [".."; "en-de-tokenizer.json"].

Definition load_tokenizer (w : World) (a : Args) : M Tokenizer :=
  when (is_rank0 a) (clear_cache w);;
  (* the argument [tokenizer_path] is overwritten *)
  let tokenizer_path := tokenizer_file w in
  found ← os_path_exists tokenizer_path;
  if negb found then
    raise (FileNotFoundError
             ("Tokenizer not found at " +:+ tokenizer_path
              +:+ ". Run tokenizer script first."))
  else
    when (is_rank0 a) (print (MsgLoadingTokenizer tokenizer_path));;
    tokenizer ← lift (PreTrainedTokenizerFast w tokenizer_path);
    mret (ensure_special_tokens tokenizer).

(** *** After the [try] block (lines 184-215) *)

Definition make_loaders (a : Args) (tokenizer : Tokenizer)
    (train_dataset val_dataset : TranslationDataset)
  : M (DataLoader * DataLoader * Tokenizer) :=
  let pad_id := pad_token_id tokenizer in
  let '(train_sampler, val_sampler, train_shuffle) :=
    if use_ddp a then
      (Some (mkDistributedSampler (world_size a) (rank a) true),
       Some (mkDistributedSampler (world_size a) (rank a) false),
       false)
    else (None, None, true) in
  let num_workers := default 2 (num_workers (training_config a)) in
  b1 ← lift (getattr (batch_size (training_config a)) "batch_size");
  let train_loader :=
    mkDataLoader train_dataset b1 pad_id train_sampler train_shuffle
      num_workers true in
  b2 ← lift (getattr (batch_size (training_config a)) "batch_size");
  let val_loader :=
    mkDataLoader val_dataset b2 pad_id val_sampler false num_workers true in
  mret (train_loader, val_loader, tokenizer).

(** *** The whole function *)

(** [except Exception as e:] of line 178. *)
Definition on_error {A} (a : Args) (e : exn) : M A :=
  when (is_rank0 a) (print (MsgFatal e));;
  sys_exit 1.

Definition create_dataloaders (w : World) (a : Args)
  : M (DataLoader * DataLoader * Tokenizer) :=
  tokenizer ← load_tokenizer w a;
  '(train_dataset, val_dataset) ←
    try_except (load_and_build w a tokenizer) (on_error a);
  make_loaders a tokenizer train_dataset val_dataset.

(** ** Encoder ([src/encoder.py]) *)

(** The entries of the tensors are floating-point numbers and the layers
    are [torch] primitives, so the encoder is written over an interface:
    a tensor type with its shape, the learnable weights of a module, and
    the [forward] of each primitive module.  A primitive may refuse its
    input (a shape mismatch raises). *)
Class Torch : Type := {
  Tensor : Type;
  Params : Type;
  Float : Type;
  shape : Tensor → list nat
}.

Section Modules.
Context `{Torch}.

Record Linear : Type := mkLinear {
  in_features : nat;
  out_features : nat;
  linear_params : Params
}.

Record LayerNorm : Type := mkLayerNorm {
  normalized_shape : nat;
  layernorm_params : Params
}.

Record Dropout : Type := mkDropout {
  p : Float
}.

(** Modelled from the spec: [MultiHeadAttention] lives in
    [src/attention.py], which is not among the sources.  The spec (4.6)
    gives its configuration: the model dimension [D], the number of
    heads [H], a dropout rate, and learnable projections. *)
Record MultiHeadAttention : Type := mkMultiHeadAttention {
  mha_d_model : nat;
  mha_n_heads : nat;
  mha_dropout : Float;
  mha_params : Params
}.

(** Modelled from the spec: constructing [MultiHeadAttention] is a
    configuration error unless [D] is evenly divisible by [H] (4.6). *)
Definition MultiHeadAttention_init (d_model n_heads : nat) (dropout : Float)
    (w : Params) : result MultiHeadAttention :=
  if decide (n_heads ≠ 0 ∧ d_model `mod` n_heads = 0)%nat
  then Ok (mkMultiHeadAttention d_model n_heads dropout w)
  else Raise (OtherException "d_model must be divisible by n_heads").

(** [nn.Sequential(nn.Linear, nn.GELU(), nn.Dropout, nn.Linear)] *)
Record FeedForward : Type := mkFeedForward {
  ff_linear1 : Linear;
  ff_dropout : Dropout;
  ff_linear2 : Linear
}.

Record EncoderLayer : Type := mkEncoderLayer {
  self_attention : MultiHeadAttention;
  feed_forward : FeedForward;
  norm1 : LayerNorm;
  norm2 : LayerNorm;
  dropout : Dropout
}.

(** The freshly initialised weights of the modules of one layer: the
    constructors draw them at random, here they are handed in. *)
Record LayerWeights : Type := mkLayerWeights {
  w_attention : Params;
  w_linear1 : Params;
  w_linear2 : Params;
  w_norm1 : Params;
  w_norm2 : Params
}.

Definition EncoderLayer_init (d_model n_heads d_ff : nat) (dropout : Float)
    (w : LayerWeights) : result EncoderLayer :=
  self_attention ← MultiHeadAttention_init d_model n_heads dropout (w_attention w);
  let feed_forward :=
    mkFeedForward (mkLinear d_model d_ff (w_linear1 w)) (mkDropout dropout)
      (mkLinear d_ff d_model (w_linear2 w)) in
  let norm1 := mkLayerNorm d_model (w_norm1 w) in
  let norm2 := mkLayerNorm d_model (w_norm2 w) in
  let dropout := mkDropout dropout in
  mret (mkEncoderLayer self_attention feed_forward norm1 norm2 dropout).

Record Encoder : Type := mkEncoder {
  layers : list EncoderLayer
}.

(** [range(n)] *)
Definition range (n : Z) : list nat := seq 0 (Z.to_nat n).

(** [nn.ModuleList([EncoderLayer(...) for _ in range(n_layers)])]; the
    weights of layer [i] are [init i]. *)
Definition Encoder_init (n_layers : Z) (d_model n_heads d_ff : nat)
    (dropout : Float) (init : nat → LayerWeights) : result Encoder :=
  layers ← mapM (λ i, EncoderLayer_init d_model n_heads d_ff dropout (init i))
                (range n_layers);
  mret (mkEncoder layers).

(** The [forward] of the primitive modules. *)
Class TorchForward : Type := {
  add : Tensor → Tensor → result Tensor;
  Linear_forward : Linear → Tensor → result Tensor;
  GELU_forward : Tensor → Tensor;
  Dropout_forward : Dropout → Tensor → Tensor;
  LayerNorm_forward : LayerNorm → Tensor → result Tensor;
  MultiHeadAttention_forward :
    MultiHeadAttention → Tensor → Tensor → Tensor → option Tensor
    → result Tensor
}.

Context `{TorchForward}.

Definition FeedForward_forward (ff : FeedForward) (x : Tensor)
  : result Tensor :=
  x ← Linear_forward (ff_linear1 ff) x;
  let x := GELU_forward x in
  let x := Dropout_forward (ff_dropout ff) x in
  Linear_forward (ff_linear2 ff) x.

Definition EncoderLayer_forward (l : EncoderLayer) (x : Tensor)
    (mask : option Tensor) : result Tensor :=
  (* Self-attention + residual *)
  attn_output ← MultiHeadAttention_forward (self_attention l) x x x mask;
  s ← add x (Dropout_forward (dropout l) attn_output);
  x ← LayerNorm_forward (norm1 l) s;
  (* Feed-forward + residual *)
  ff_output ← FeedForward_forward (feed_forward l) x;
  s ← add x (Dropout_forward (dropout l) ff_output);
  x ← LayerNorm_forward (norm2 l) s;
  mret x.

(** [for layer in self.layers: x = layer(x, mask)] *)
Fixpoint forward_loop (ls : list EncoderLayer) (x : Tensor)
    (mask : option Tensor) : result Tensor :=
  match ls with
  | [] => Ok x
  | layer :: ls' =>
      x ← EncoderLayer_forward layer x mask;
      forward_loop ls' x mask
  end.

Definition Encoder_forward (enc : Encoder) (x : Tensor)
    (mask : option Tensor) : result Tensor :=
  forward_loop (layers enc) x mask.

(** The mask of the spec, [[*, T, T]], or no mask. *)
Definition mask_fits (mask : option Tensor) (T : nat) : Prop :=
  match mask with
  | None => True
  | Some m => ∃ pre, shape m = pre ++ [T; T]
  end.

(** What the primitives do to shapes.  For the [torch] modules this is
    their documented behaviour; for [MultiHeadAttention] it is the
    contract of the spec (4.6): an input [[B, T, D]] and an optional mask
    [[*, T, T]] give an output [[B, T, D]]. *)
Class TorchShapes : Prop := {
  add_shape x y :
    shape x = shape y → ∃ z, add x y = Ok z ∧ shape z = shape x;
  Linear_shape l x pre :
    shape x = pre ++ [in_features l] →
    ∃ y, Linear_forward l x = Ok y ∧ shape y = pre ++ [out_features l];
  GELU_shape x : shape (GELU_forward x) = shape x;
  Dropout_shape d x : shape (Dropout_forward d x) = shape x;
  LayerNorm_shape n x pre :
    shape x = pre ++ [normalized_shape n] →
    ∃ y, LayerNorm_forward n x = Ok y ∧ shape y = shape x;
  MultiHeadAttention_shape m x mask B T :
    (mha_n_heads m ≠ 0 ∧ mha_d_model m `mod` mha_n_heads m = 0)%nat →
    shape x = [B; T; mha_d_model m] →
    mask_fits mask T →
    ∃ y, MultiHeadAttention_forward m x x x mask = Ok y ∧ shape y = shape x
}.
End Modules.

(** *** A concrete instance: tensors known by their shape only *)

Module ShapeOnly.
#[export] Instance torch : Torch := {|
  Tensor := list nat;
  Params := ();
  Float := ();
  shape := λ s, s
|}.

Definition last_is (d : nat) (s : list nat) : bool :=
  bool_decide (last s = Some d).

(** Replace the last dimension. *)
Definition with_last (d : nat) (s : list nat) : list nat :=
  removelast s ++ [d].

Definition mask_ok (mask : option (list nat)) (T : nat) : bool :=
  match mask with
  | None => true
  | Some m => bool_decide (drop (length m - 2) m = [T; T])
  end.

(** Shapes that differ are refused (no broadcasting). *)
Definition add_shapes (x y : list nat) : result (list nat) :=
  if decide (x = y) then Ok x else Raise (RuntimeError "size mismatch").

Definition linear_shapes (l : Linear) (x : list nat) : result (list nat) :=
  if last_is (in_features l) x then Ok (with_last (out_features l) x)
  else Raise (RuntimeError "shapes cannot be multiplied").

Definition layernorm_shapes (n : LayerNorm) (x : list nat)
  : result (list nat) :=
  if last_is (normalized_shape n) x then Ok x
  else Raise (RuntimeError "wrong normalized_shape").

Definition attention_shapes (m : MultiHeadAttention) (q k v : list nat)
    (mask : option (list nat)) : result (list nat) :=
  match q with
  | [B; T; D] =>
      if bool_decide (D = mha_d_model m ∧ k = q ∧ v = q) && mask_ok mask T
      then Ok q else Raise (RuntimeError "shape mismatch")
  | _ => Raise (RuntimeError "expected a tensor [B, T, D]")
  end.

#[export] Instance forward : TorchForward :=
  @Build_TorchForward torch add_shapes linear_shapes (λ x, x) (λ _ x, x)
    layernorm_shapes attention_shapes.
End ShapeOnly.

(** ** Properties stated below *)




(** The target-language text of a record, when it has one. *)
Definition de_text (r : record) : option string :=
  match r !! "de" with
  | Some (VStr t) => Some t
  | _ => None
  end.

Definition has_de (r : record) : Prop := is_Some (de_text r).

(** The target-language sentences of a collection, as a set. *)
Definition de_sentences (l : list record) : gset string :=
  list_to_set (omap de_text l).

(** The target-language text of [r] is one of [sentences]. *)
Definition de_member (sentences : gset string) (r : record) : Prop :=
  match de_text r with
  | Some d => d ∈ sentences
  | None => False
  end.

#[global] Instance de_member_dec sentences r : Decision (de_member sentences r).
Proof. unfold de_member. destruct (de_text r); apply _. Defined.

(** [leaked train r]: the target-language text of [r] occurs among the
    target-language texts of [train]. *)
Abbreviation leaked train := (de_member (de_sentences train)).

(** No record of [val] is leaked. *)
Definition leak_free (train val : list record) : Prop :=
  ∀ r, r ∈ val → ¬ leaked train r.

(** The lines the leakage check prints when [n] records of the validation
    collection are leaked, [first] being the text of the first of them. *)
Definition leakage_report (n : nat) (first : value) : list message :=
  [MsgLeakageCheck; MsgBangs; MsgLeakageConfirmed; MsgBangs; MsgFoundLeaked n;
   MsgExampleLeaked first; MsgProceedFiltering; MsgFiltered (Z.of_nat n);
   MsgPassedAfterFiltering].

(** The lines the leakage check prints for [train] and [val]. *)
Definition leakage_lines (train val : list record) : list message :=
  match filter (leaked train) val with
  | [] => [MsgLeakageCheck; MsgPassed]
  | first :: rest =>
      leakage_report (S (length rest))
        (from_option VStr (VStr "") (de_text first))
  end.

(** [s] with [lines] printed next. *)
Definition printed (lines : list message) (s : state) : state :=
  mkState (stdout s ++ lines) (fs s).

(** The state in which [create_dataloaders] looks for the tokenizer file:
    on rank 0 the cache has been cleared, elsewhere nothing has happened. *)
Definition after_cache (w : World) (a : Args) (s : state) : state :=
  (when (is_rank0 a) (clear_cache w) s).2.


(** An encoder layer as [EncoderLayer(d_model, n_heads, d_ff, _)] builds
    it: the dimensions of its modules. *)
Definition layer_configured `{Torch} (d_model n_heads d_ff : nat)
    (l : EncoderLayer) : Prop :=
  mha_d_model (self_attention l) = d_model
  ∧ (mha_n_heads (self_attention l) ≠ 0
     ∧ mha_d_model (self_attention l) `mod` mha_n_heads (self_attention l) = 0)%nat
  ∧ in_features (ff_linear1 (feed_forward l)) = d_model
  ∧ out_features (ff_linear1 (feed_forward l)) = d_ff
  ∧ in_features (ff_linear2 (feed_forward l)) = d_ff
  ∧ out_features (ff_linear2 (feed_forward l)) = d_model
  ∧ normalized_shape (norm1 l) = d_model
  ∧ normalized_shape (norm2 l) = d_model.

(** ** Sample inputs *)

Module Sample.
(** A toy subword model: one id per character. *)
Fixpoint char_ids (s : string) : list Z :=
  match s with
  | EmptyString => []
  | String c s' => Z.of_nat (nat_of_ascii c) :: char_ids s'
  end.

Definition tok : Tokenizer :=
  mkTokenizer None None None None None None (λ _, None) char_ids true.

Definition flat : record :=
  {[ "en" := VStr "a man on a horse"; "de" := VStr "ein Mann" ]}.

Definition nested : record :=
  {[ "translation" := VDict {[ "en" := "a dog"; "de" := "ein Hund" ]} ]}.

Definition ds : TranslationDataset :=
  TranslationDataset_init [flat; nested] tok (Some 8) None.

Definition hallo : record := {[ "en" := VStr "Hello"; "de" := VStr "Hallo" ]}.
Definition welt : record := {[ "en" := VStr "World"; "de" := VStr "Welt" ]}.
Definition x_hallo : record := {[ "src" := VStr "x"; "de" := VStr "Hallo" ]}.
Definition y_katze : record := {[ "src" := VStr "y"; "de" := VStr "Katze" ]}.
Definition hi_hallo : record := {[ "en" := VStr "Hi"; "de" := VStr "Hallo" ]}.
Definition cat_katze : record := {[ "en" := VStr "Cat"; "de" := VStr "Katze" ]}.

(** A machine on which the tokenizer file is present and the corpus has
    the splits [corpus "train"] and [corpus "validation"]. *)
Definition world (t : result Tokenizer)
    (corpus : string → result (list record)) : World :=
  mkWorld ∅ (λ _, "/home/u/.cache/huggingface") "/repo/src" None
    (λ _, t) (λ _ split, corpus split) (λ _ l, l).

Definition corpus (split : string) : result (list record) :=
  if decide (split = "train") then Ok [hallo; welt]
  else Ok [hi_hallo; cat_katze].

Definition unreachable (split : string) : result (list record) :=
  Raise (OtherException "Couldn't reach the dataset on the Hub").

Definition start : state :=
  mkState [] {[ "/repo/src/../en-de-tokenizer.json" ]}.


Definition config : ModelConfig := mkModelConfig (Some 8).
Definition training : TrainingConfig := mkTrainingConfig (Some 32) None.

(** The default call, and the same call made by the process of rank 1
    in a group of two. *)
Definition args0 : Args := default_args config training "tok.json".
Definition args1 : Args :=
  mkArgs config training "tok.json" true 1 2 "bentrevett/multi30k" None 42.


Definition machine : World := world (Ok tok) corpus.
Definition offline : World := world (Ok tok) unreachable.

(** What the two calls return on [machine]. *)
Definition loaded_tok : Tokenizer := ensure_special_tokens tok.

Definition loader (records : list record) (s : option DistributedSampler)
    (shuffled : bool) : DataLoader :=
  mkDataLoader (TranslationDataset_init records loaded_tok (Some 8) None)
    32 (Some 3) s shuffled 2 true.

Definition train_loader0 : DataLoader := loader [hallo; welt] None true.
Definition val_loader0 : DataLoader := loader [cat_katze] None false.
Definition train_loader1 : DataLoader :=
  loader [hallo; welt] (Some (mkDistributedSampler 2 1 true)) false.
Definition val_loader1 : DataLoader :=
  loader [hi_hallo; cat_katze] (Some (mkDistributedSampler 2 1 false)) false.

Definition tokenizer_lines : list message :=
  [MsgCheckingCache; MsgCacheNotFound;
   MsgLoadingTokenizer "/repo/src/../en-de-tokenizer.json"].

Definition lines0 : list message :=
  tokenizer_lines
  ++ [MsgLoadingDataset "bentrevett/multi30k"]
  ++ leakage_report 1 (VStr "Hallo") ++ [MsgUsing 2 1].

End Sample.

Module ShapeSample.
Import ShapeOnly.

Definition weights (i : nat) : LayerWeights :=
  @mkLayerWeights torch () () () () ().

Definition layer : EncoderLayer :=
  @mkEncoderLayer torch
    (@mkMultiHeadAttention torch 8 2 () ())
    (@mkFeedForward torch (@mkLinear torch 8 32 ()) (@mkDropout torch ())
       (@mkLinear torch 32 8 ()))
    (@mkLayerNorm torch 8 ()) (@mkLayerNorm torch 8 ()) (@mkDropout torch ()).

(** [Encoder(2, 8, 2, 32)] *)
Definition encoder : Encoder := @mkEncoder torch [layer; layer].

(** An input [[4, 7, 8]] and a mask [[7, 7]]. *)
Definition input : list nat := [4; 7; 8]%nat.
Definition mask : option (list nat) := Some [7; 7]%nat.
End ShapeSample.

(** ** Further properties: definitions *)

(** The directory that [clear_cache] looks for and deletes. *)
Definition cache_path (w : World) : string :=
  os_path_join
    (os_path_join
       (default (expanduser w "~/.cache/huggingface") (environ w !! "HF_HOME"))
       ["datasets"])
    ["bentrevett___multi30k"].


(** From [s] to [s']: lines were only added to the output, no path was
    created, and every path that is gone was the cache directory or below
    it. *)
Definition grows_only (w : World) (s s' : state) : Prop :=
  stdout s `prefix_of` stdout s'
  ∧ fs s' ⊆ fs s
  ∧ ∀ q, q ∈ fs s → q ∉ fs s' → under (cache_path w) q = true.


(** The training records that the datasets are built from: the split, or
    its first [subset_size] records after the seeded shuffle. *)
Definition training_records (w : World) (a : Args) (train : list record)
  : list record :=
  match subset_size a with
  | Some n =>
      if decide (n < Z.of_nat (length train))
      then take (Z.to_nat n) (shuffle w (seed a + 1) train)
      else train
  | None => train
  end.

(** The two exceptions that reading a record's ['de'] text can raise: the
    key is missing, or the entry is a dictionary and cannot be hashed. *)
Definition de_error (e : exn) : Prop :=
  e = KeyError "de" ∨ e = TypeError "unhashable type: 'dict'".

Module Sample2.
(** A record without any ['de'] entry, and the corpus made of it. *)
Definition nested_corpus (split : string) : result (list record) :=
  Ok [Sample.nested].

Definition nested_machine : World := Sample.world (Ok Sample.tok) nested_corpus.

(** A machine on which the cache directory exists. *)
Definition cached : state :=
  mkState []
    {[ "/repo/src/../en-de-tokenizer.json";
       "/home/u/.cache/huggingface/datasets/bentrevett___multi30k";
       "/home/u/.cache/huggingface/datasets/bentrevett___multi30k/train.arrow";
       "/home/u/.cache/huggingface/datasets/other" ]}.






(** A machine on which the tokenizer file is unreadable. *)
Definition broken_tokenizer : World :=
  Sample.world (Raise (OtherException "expected value at line 1 column 1"))
    Sample.corpus.

(** A call that asks for one training record, and one without a batch
    size. *)
Definition args_subset : Args :=
  mkArgs Sample.config Sample.training "tok.json" false 0 1
    "bentrevett/multi30k" (Some 1) 42.


Definition train_loader_subset : DataLoader :=
  Sample.loader [Sample.hallo] None true.

Definition lines_subset : list message :=
  Sample.tokenizer_lines
  ++ [MsgLoadingDataset "bentrevett/multi30k"]
  ++ leakage_report 1 (VStr "Hallo") ++ [MsgUsingSubset 1; MsgUsing 1 1].
End Sample2.

(** * Theorems *)

(** ** Results *)

Lemma bind_Ok {A B} (r : result A) (f : A → result B) (b : B) :
  r ≫= f = Ok b ↔ ∃ a, r = Ok a ∧ f a = Ok b.
Proof.
  destruct r as [a|e]; simpl.
  - split; [eauto | by intros (? & [= ->] & ?)].
  - split; [done | by intros (? & ? & ?)].
Qed.

Lemma fmap_Ok {A B} (r : result A) (f : A → B) (b : B) :
  f <$> r = Ok b ↔ ∃ a, r = Ok a ∧ b = f a.
Proof.
  destruct r as [a|e]; simpl.
  - split; [intros [= <-]; eauto | by intros (? & [= ->] & ->)].
  - split; [done | by intros (? & ? & ?)].
Qed.

(** ** TranslationDataset.__getitem__ *)

Lemma list_getitem_nat {A} (l : list A) (i : nat) (x : A) :
  l !! i = Some x → list_getitem l (Z.of_nat i) = Ok x.
Proof.
  intros Hi. unfold list_getitem. cbv zeta.
  repeat case_decide; try lia.
  by rewrite Nat2Z.id, Hi.
Qed.







(** ** collate_fn *)

Section Collate.
Implicit Types (seqs : list (list Z)) (s row : list Z) (pad : Z).






End Collate.






(** ** The leakage filter, without the printing *)

Lemma de_of_text (r : record) (d : string) :
  de_of r = Ok d ↔ de_text r = Some d.
Proof.
  unfold de_of, de_text, getitem.
  destruct (r !! "de") as [[t|m]|]; simpl; naive_solver.
Qed.

Lemma de_of_has_de (r : record) :
  has_de r → ∃ d, de_text r = Some d ∧ de_of r = Ok d.
Proof. intros [d Hd]. exists d. split; [done|]. by apply de_of_text. Qed.

Lemma mapM_cons {A B} (f : A → result B) (x : A) (l : list A) :
  mapM f (x :: l) = (y ← f x; k ← mapM f l; mret (y :: k)).
Proof. done. Qed.

Lemma mapM_de_of (l : list record) (ds : list string) :
  mapM de_of l = Ok ds ↔ Forall has_de l ∧ ds = omap de_text l.
Proof.
  revert ds. induction l as [|r l IH]; intros ds.
  - split; [by intros [= <-] | by intros [_ ->]].
  - rewrite mapM_cons, Forall_cons. simpl omap.
    destruct (de_of r) as [d|e] eqn:Hd.
    + apply de_of_text in Hd. rewrite Hd.
      destruct (mapM de_of l) as [ds'|e] eqn:Hm; simpl.
      * destruct (IH ds') as [[Hall ->] _]; [done|].
        split; [intros [= <-]; split_and!; [by exists d|done..]
               | by intros [_ ->]].
      * split; [done|]. intros [[_ Hall] _].
        destruct (IH (omap de_text l)) as [_ Hback].
        specialize (Hback (conj Hall eq_refl)). congruence.
    + simpl. split; [done|]. intros [[Hr _] _].
      destruct (de_of_has_de _ Hr) as (d & _ & Hof). congruence.
Qed.

Lemma de_set_Ok (l : list record) (S : gset string) :
  de_set l = Ok S ↔ Forall has_de l ∧ S = de_sentences l.
Proof.
  unfold de_set, de_sentences. rewrite fmap_Ok.
  setoid_rewrite mapM_de_of. split.
  - by intros (ds & [Hall ->] & ->).
  - intros [Hall ->]. by eexists.
Qed.

Lemma filter_with_Ok_has_de (p : gset string → record → result bool)
    (T : gset string) (l k : list record) :
  (∀ r b, p T r = Ok b → has_de r) →
  filter_with (p T) l = Ok k → Forall has_de l.
Proof.
  intros Hp. revert k. induction l as [|r l IH]; intros k; simpl; [done|].
  rewrite bind_Ok. setoid_rewrite bind_Ok.
  intros (b & Hb & k' & Hk' & _). constructor; eauto.
Qed.

Lemma de_member_Some (T : gset string) (r : record) (d : string) :
  de_text r = Some d → de_member T r ↔ d ∈ T.
Proof. unfold de_member. by intros ->. Qed.

Lemma de_in_Ok (T : gset string) (r : record) (b : bool) :
  de_in T r = Ok b ↔ has_de r ∧ b = bool_decide (de_member T r).
Proof.
  unfold de_in, has_de. rewrite bind_Ok.
  setoid_rewrite de_of_text. split.
  - intros (d & Hd & [= <-]). split; [by eexists|].
    apply bool_decide_ext. symmetry. by apply de_member_Some.
  - intros [[d Hd] ->]. exists d. split; [done|]. f_equal.
    apply bool_decide_ext. symmetry. by apply de_member_Some.
Qed.

Lemma de_not_in_Ok (T : gset string) (r : record) (b : bool) :
  de_not_in T r = Ok b ↔ has_de r ∧ b = bool_decide (¬ de_member T r).
Proof.
  unfold de_not_in. rewrite fmap_Ok. setoid_rewrite de_in_Ok. split.
  - intros (b' & [Hr ->] & ->). split; [done|].
    by rewrite bool_decide_not.
  - intros [Hr ->]. eexists. split; [done|]. by rewrite bool_decide_not.
Qed.

Lemma filter_with_de_in (T : gset string) (l : list record) :
  Forall has_de l →
  filter_with (de_in T) l = Ok (filter (de_member T) l).
Proof.
  induction 1 as [|r l Hr _ IH]; simpl; [done|].
  assert (de_in T r = Ok (bool_decide (de_member T r))) as ->
    by by apply de_in_Ok.
  simpl. rewrite IH. simpl. rewrite filter_cons.
  by destruct (decide (de_member T r));
    [rewrite bool_decide_true | rewrite bool_decide_false].
Qed.

Lemma filter_with_de_not_in (T : gset string) (l : list record) :
  Forall has_de l →
  filter_with (de_not_in T) l = Ok (filter (λ r, ¬ de_member T r) l).
Proof.
  induction 1 as [|r l Hr _ IH]; simpl; [done|].
  assert (de_not_in T r = Ok (bool_decide (¬ de_member T r))) as ->
    by by apply de_not_in_Ok.
  simpl. rewrite IH. simpl. rewrite filter_cons.
  by destruct (decide (¬ de_member T r));
    [rewrite bool_decide_true | rewrite bool_decide_false].
Qed.

(** Filtering on the leaked sentences (line 154) removes the same records
    as filtering on the training sentences would. *)
Lemma de_member_leaked_set (T : gset string) (val : list record) (r : record) :
  r ∈ val →
  de_member (de_sentences (filter (de_member T) val)) r ↔ de_member T r.
Proof.
  intros Hr. destruct (de_text r) as [d|] eqn:Hd.
  - rewrite !(de_member_Some _ _ _ Hd).
    unfold de_sentences. rewrite elem_of_list_to_set, list_elem_of_omap.
    setoid_rewrite list_elem_of_filter. split.
    + intros (r' & [Hm _] & Hd'). by apply (de_member_Some _ _ _ Hd').
    + intros HT. exists r. split_and!; [|done|done].
      by apply (de_member_Some _ _ _ Hd).
  - unfold de_member. by rewrite Hd.
Qed.

Lemma filter_ext_in {A} (P Q : A → Prop) `{!∀ x, Decision (P x)}
    `{!∀ x, Decision (Q x)} (l : list A) :
  (∀ x, x ∈ l → P x ↔ Q x) → filter P l = filter Q l.
Proof.
  induction l as [|x l IH]; intros Hext; [done|].
  rewrite !filter_cons.
  rewrite IH by (intros y Hy; apply Hext; by right).
  specialize (Hext x (list_elem_of_here _ _)).
  destruct (decide (P x)), (decide (Q x)); try done; tauto.
Qed.

Lemma filter_leaked_set (T : gset string) (val : list record) :
  filter (λ r, ¬ de_member (de_sentences (filter (de_member T) val)) r) val
  = filter (λ r, ¬ de_member T r) val.
Proof.
  apply filter_ext_in. intros r Hr. by rewrite de_member_leaked_set.
Qed.

Lemma length_filter_split {A} (P : A → Prop) `{!∀ x, Decision (P x)}
    (l : list A) :
  (length (filter P l) + length (filter (λ x, ¬ P x) l) = length l)%nat.
Proof.
  induction l as [|x l IH]; [done|].
  rewrite !filter_cons.
  destruct (decide (P x)), (decide (¬ P x)); simpl; try lia; tauto.
Qed.

Lemma filter_none {A} (P : A → Prop) `{!∀ x, Decision (P x)} (l : list A) :
  (∀ x, x ∈ l → ¬ P x) → filter P l = [] ∧ filter (λ x, ¬ P x) l = l.
Proof.
  induction l as [|x l IH]; intros Hno; [done|].
  rewrite !filter_cons.
  destruct IH as [-> ->]; [intros y Hy; apply Hno; by right|].
  specialize (Hno x (list_elem_of_here _ _)).
  destruct (decide (P x)), (decide (¬ P x)); try done; tauto.
Qed.

Lemma filter_nil_complement {A} (P : A → Prop) `{!∀ x, Decision (P x)}
    (l : list A) :
  filter P l = [] → filter (λ x, ¬ P x) l = l.
Proof.
  intros Hnil. apply filter_none. intros x Hx HP.
  by apply (filter_nil_not_elem_of P l x).
Qed.

Lemma Forall_has_de_filter (P : record → Prop) `{!∀ x, Decision (P x)}
    (l : list record) :
  Forall has_de l → Forall has_de (filter P l).
Proof.
  rewrite !Forall_forall. intros Hall r Hr.
  apply list_elem_of_filter in Hr as [_ Hr]. by apply Hall.
Qed.

Lemma getitem_de (r : record) :
  has_de r → getitem r "de" = Ok (from_option VStr (VStr "") (de_text r)).
Proof.
  unfold has_de, de_text, getitem. intros [d Hd].
  by destruct (r !! "de") as [[t|m]|].
Qed.

(** ** The process monad *)

Lemma print_bind {B} (msg : message) (k : M B) (s : state) :
  (print msg;; k) s = k (printed [msg] s).
Proof. done. Qed.

Lemma lift_Ok_bind {A B} (a : A) (f : A → M B) (s : state) :
  (lift (Ok a) ≫= f) s = f a s.
Proof. done. Qed.

Lemma lift_Raise_bind {A B} (e : exn) (f : A → M B) (s : state) :
  (lift (Raise e) ≫= f) s = (Raised e, s).
Proof. done. Qed.

Lemma printed_app (l1 l2 : list message) (s : state) :
  printed l2 (printed l1 s) = printed (l1 ++ l2) s.
Proof. unfold printed. simpl. by rewrite (assoc_L (++)). Qed.

Lemma bind_Returned {A B} (m : M A) (f : A → M B) (s s' : state) (b : B) :
  (m ≫= f) s = (Returned b, s') →
  ∃ a s1, m s = (Returned a, s1) ∧ f a s1 = (Returned b, s').
Proof.
  unfold mbind, M_bind. destruct (m s) as [[a|e|c] s1]; [eauto|done..].
Qed.

(** ** leakage_check *)

(** On collections whose records all have a target-language text, the
    check returns and its result and output are these. *)
Lemma leakage_check_run (train val : list record) (s : state) :
  Forall has_de train → Forall has_de val →
  leakage_check train val s
  = (Returned (filter (λ r, ¬ leaked train r) val),
     printed (leakage_lines train val) s).
Proof.
  intros Htrain Hval. unfold leakage_check. rewrite print_bind.
  assert (de_set train = Ok (de_sentences train)) as -> by by apply de_set_Ok.
  rewrite lift_Ok_bind, filter_with_de_in, lift_Ok_bind by done.
  pose proof (Forall_has_de_filter (leaked train) val Hval) as Hleaked.
  pose proof (filter_leaked_set (de_sentences train) val) as Hset.
  pose proof (length_filter_split (leaked train) val) as Hlen.
  pose proof (filter_nil_complement (leaked train) val) as Hnil.
  unfold leakage_lines.
  destruct (filter (leaked train) val) as [|first rest] eqn:Hfilter.
  - rewrite decide_False by (simpl; lia).
    rewrite print_bind, printed_app, Hnil by done. done.
  - rewrite decide_True by (simpl; lia).
    rewrite !print_bind, !printed_app.
    assert (list_getitem (first :: rest) 0 = Ok first) as -> by done.
    rewrite lift_Ok_bind.
    rewrite getitem_de by by inversion Hleaked.
    rewrite lift_Ok_bind, print_bind, print_bind, !printed_app.
    assert (de_set (first :: rest) = Ok (de_sentences (first :: rest))) as ->
      by by apply de_set_Ok.
    rewrite lift_Ok_bind, filter_with_de_not_in, lift_Ok_bind by done.
    rewrite Hset.
    rewrite !print_bind, !printed_app.
    replace (Z.of_nat (length val)
             - Z.of_nat (length (filter (λ r, ¬ leaked train r) val)))
      with (Z.of_nat (length (first :: rest))) by lia.
    done.
Qed.

(** If the check returns, every record had a target-language text. *)
Lemma leakage_check_Returned (train val val' : list record) (s s' : state) :
  leakage_check train val s = (Returned val', s') →
  Forall has_de train ∧ Forall has_de val.
Proof.
  unfold leakage_check. rewrite print_bind.
  destruct (de_set train) as [T|e] eqn:HT; [|by rewrite lift_Raise_bind].
  apply de_set_Ok in HT as [Htrain ->]. rewrite lift_Ok_bind.
  destruct (filter_with (de_in (de_sentences train)) val) as [k|e] eqn:Hk;
    [|by rewrite lift_Raise_bind].
  intros _. split; [done|].
  eapply (filter_with_Ok_has_de de_in); [|done].
  intros r b Hb. by apply de_in_Ok in Hb as [? _].
Qed.

(** C4. On collections whose records carry a target-language text, the
    leakage filter keeps exactly the validation records that are not
    leaked (their text is not among the training texts), in their order;
    when some record is leaked it prints the number of leaked records and
    the number of removed records, which agree; when none is, the
    validation collection is returned as it is.  For training texts
    {"Hallo", "Welt"} and the validation records
    [{src: "x", de: "Hallo"}; {src: "y", de: "Katze"}] the result is
    [{src: "y", de: "Katze"}] and the printed count is 1. *)
Theorem leakage_filter_exact :
  (∀ (train val : list record) (s : state),
     Forall has_de train → Forall has_de val →
     let removed := filter (leaked train) val in
     let kept := filter (λ r, ¬ leaked train r) val in
     ∃ lines,
       leakage_check train val s = (Returned kept, printed lines s)
       ∧ (∀ r, r ∈ kept ↔ r ∈ val ∧ ¬ leaked train r)
       ∧ (length kept + length removed = length val)%nat
       ∧ (removed = [] → kept = val ∧ lines = [MsgLeakageCheck; MsgPassed])
       ∧ (removed ≠ [] →
          MsgFoundLeaked (length removed) ∈ lines
          ∧ MsgFiltered (Z.of_nat (length val) - Z.of_nat (length kept)) ∈ lines
          ∧ Z.of_nat (length val) - Z.of_nat (length kept)
            = Z.of_nat (length removed)))
  ∧ (∀ (train : list record) (s : state),
       de_set train = Ok {[ "Hallo"; "Welt" ]} →
       leakage_check train [Sample.x_hallo; Sample.y_katze] s
       = (Returned [Sample.y_katze],
          printed (leakage_report 1 (VStr "Hallo")) s)).
Proof.
  split.
  - intros train val s Htrain Hval removed kept.
    exists (leakage_lines train val).
    pose proof (length_filter_split (leaked train) val) as Hlen.
    fold removed kept in Hlen.
    split_and!.
    + by apply leakage_check_run.
    + intros r. unfold kept. rewrite list_elem_of_filter. tauto.
    + lia.
    + intros Hnil. unfold leakage_lines. fold removed. rewrite Hnil.
      split; [by apply filter_nil_complement|done].
    + intros Hne. unfold leakage_lines. fold removed.
      destruct removed as [|first rest] eqn:Hrem; [done|].
      replace (Z.of_nat (length val) - Z.of_nat (length kept))
        with (Z.of_nat (length (first :: rest))) by lia.
      unfold leakage_report. simpl length.
      split_and!; [| |done]; rewrite !elem_of_cons; tauto.
  - intros train s Hset. apply de_set_Ok in Hset as [Htrain Hset].
    rewrite leakage_check_run; [|done|].
    + unfold leakage_lines. rewrite <-Hset. by vm_compute.
    + repeat constructor; by eexists.
Qed.

Lemma leakage_filter_exact_witness :
  (∃ lines,
     leakage_check [Sample.hallo; Sample.welt]
       [Sample.hi_hallo; Sample.cat_katze] Sample.start
     = (Returned (filter (λ r, ¬ leaked [Sample.hallo; Sample.welt] r)
                    [Sample.hi_hallo; Sample.cat_katze]),
        printed lines Sample.start))
  ∧ leakage_check [Sample.hallo; Sample.welt]
      [Sample.x_hallo; Sample.y_katze] Sample.start
    = (Returned [Sample.y_katze],
       printed (leakage_report 1 (VStr "Hallo")) Sample.start).
Proof.
  split.
  - destruct (proj1 leakage_filter_exact [Sample.hallo; Sample.welt]
                [Sample.hi_hallo; Sample.cat_katze] Sample.start)
      as (lines & Hrun & _).
    + repeat constructor; by eexists.
    + repeat constructor; by eexists.
    + by exists lines.
  - apply (proj2 leakage_filter_exact). by vm_compute.
Defined.

(** C7. The leakage filter is idempotent: whenever it returns a validation
    collection, running it again on that collection (with the same
    training collection, from any state) returns the collection unchanged
    and reports no leak; and on a validation collection that is free of
    leaks it is a no-op. *)
Theorem leakage_filter_idempotent :
  (∀ (train val val' : list record) (s s' t : state),
     leakage_check train val s = (Returned val', s') →
     leakage_check train val' t
     = (Returned val', printed [MsgLeakageCheck; MsgPassed] t))
  ∧ (∀ (train val : list record) (t : state),
       Forall has_de train → Forall has_de val → leak_free train val →
       leakage_check train val t
       = (Returned val, printed [MsgLeakageCheck; MsgPassed] t)).
Proof.
  assert (∀ (train val : list record) (t : state),
            Forall has_de train → Forall has_de val → leak_free train val →
            leakage_check train val t
            = (Returned val, printed [MsgLeakageCheck; MsgPassed] t)) as Hfree.
  { intros train val t Htrain Hval Hfree.
    rewrite leakage_check_run by done. unfold leakage_lines.
    destruct (filter_none (leaked train) val Hfree) as [-> ->]. done. }
  split; [|done].
  intros train val val' s s' t Hrun.
  destruct (leakage_check_Returned _ _ _ _ _ Hrun) as [Htrain Hval].
  rewrite leakage_check_run in Hrun by done. injection Hrun as <- _.
  apply Hfree; [done| by apply Forall_has_de_filter |].
  intros r Hr. by apply list_elem_of_filter in Hr as [? _].
Qed.

Lemma leakage_filter_idempotent_witness :
  leakage_check [Sample.hallo; Sample.welt] [Sample.y_katze] Sample.start
  = (Returned [Sample.y_katze],
     printed [MsgLeakageCheck; MsgPassed] Sample.start)
  ∧ leakage_check [Sample.hallo; Sample.welt] [Sample.cat_katze] Sample.start
    = (Returned [Sample.cat_katze],
       printed [MsgLeakageCheck; MsgPassed] Sample.start).
Proof.
  split.
  - apply (proj1 leakage_filter_idempotent [Sample.hallo; Sample.welt]
             [Sample.x_hallo; Sample.y_katze] [Sample.y_katze]
             Sample.start
             (printed (leakage_report 1 (VStr "Hallo")) Sample.start)).
    by vm_compute.
  - apply (proj2 leakage_filter_idempotent).
    + repeat constructor; by eexists.
    + repeat constructor; by eexists.
    + intros r Hr. apply list_elem_of_singleton in Hr as ->. by vm_compute.
Defined.

(** ** create_dataloaders *)

Lemma lift_Returned {A} (r : result A) (a : A) (s s' : state) :
  lift r s = (Returned a, s') → r = Ok a ∧ s' = s.
Proof. destruct r; simpl; [by intros [= -> ->] | done]. Qed.

Lemma when_print_bind {B} (b : bool) (msg : message) (k : M B) (s : state) :
  (when b (print msg);; k) s = k (if b then printed [msg] s else s).
Proof. by destruct b. Qed.

(** [inv_bind H]: [H] says that a sequence of steps returned; split off
    its first step. *)
Ltac inv_bind H :=
  let a := fresh "a" in
  let s := fresh "s" in
  let H1 := fresh "Hstep" in
  apply bind_Returned in H as (a & s & H1 & H).

Lemma on_error_run {A} (a : Args) (e : exn) (s : state) :
  @on_error A a e s
  = (Exited 1, if is_rank0 a then printed [MsgFatal e] s else s).
Proof. unfold on_error. by rewrite when_print_bind. Qed.

Lemma try_on_error_Returned {A} (body : M A) (a : Args) (x : A)
    (s s' : state) :
  try_except body (on_error a) s = (Returned x, s') →
  body s = (Returned x, s').
Proof.
  unfold try_except. destruct (body s) as [[y|e|c] s1]; [done| |done].
  by rewrite on_error_run.
Qed.

(** Clearing the cache never fails and only removes paths. *)
Lemma clear_cache_returns (w : World) (s : state) :
  ∃ s', clear_cache w s = (Returned (), s') ∧ fs s' ⊆ fs s.
Proof.
  unfold clear_cache. rewrite print_bind.
  unfold os_path_exists, mbind at 1, M_bind.
  case_bool_decide.
  - rewrite !print_bind. unfold try_except, shutil_rmtree.
    destruct (rmtree_error w) as [e|].
    + unfold mbind at 1, M_bind, raise. rewrite !print_bind.
      eexists. split; [reflexivity|]. done.
    + eexists. split; [reflexivity|]. simpl.
      intros q Hq. by apply elem_of_filter in Hq as [_ ?].
  - eexists. split; [reflexivity|]. done.
Qed.

Lemma after_cache_run (w : World) (a : Args) (s : state) :
  when (is_rank0 a) (clear_cache w) s = (Returned (), after_cache w a s)
  ∧ fs (after_cache w a s) ⊆ fs s
  ∧ (is_rank0 a = false → after_cache w a s = s).
Proof.
  unfold after_cache, when. destruct (is_rank0 a).
  - destruct (clear_cache_returns w s) as (s' & -> & Hsub). done.
  - done.
Qed.





(** ** Special tokens *)





(** ** The [try] block *)

Lemma load_and_build_Returned (w : World) (a : Args) (tok : Tokenizer)
    (s s' : state) (train_dataset val_dataset : TranslationDataset) :
  load_and_build w a tok s = (Returned (train_dataset, val_dataset), s') →
  ∃ train val,
    load_dataset w (dataset_name a) "train" = Ok train
    ∧ load_dataset w (dataset_name a) "validation" = Ok val
    ∧ if is_rank0 a
      then ∃ s1 s2,
             leakage_check train val s1 = (Returned (data val_dataset), s2)
      else data val_dataset = val.
Proof.
  intros Hrun. unfold load_and_build in Hrun.
  inv_bind Hrun. clear Hstep.
  inv_bind Hrun. apply lift_Returned in Hstep as [Htrain ->].
  inv_bind Hrun. apply lift_Returned in Hstep as [Hval ->].
  inv_bind Hrun. rename Hstep into Hcheck.
  inv_bind Hrun. clear Hstep.
  inv_bind Hrun. clear Hstep.
  inv_bind Hrun. clear Hstep.
  inv_bind Hrun. clear Hstep.
  injection Hrun as _ <- _.
  exists a1, a2. split_and!; [done..|]. simpl.
  destruct (is_rank0 a); [eauto|]. by injection Hcheck as ->.
Qed.

Lemma create_dataloaders_Returned (w : World) (a : Args) (s s' : state)
    (train_loader val_loader : DataLoader) (tok : Tokenizer) :
  create_dataloaders w a s = (Returned (train_loader, val_loader, tok), s') →
  ∃ s0 s1 s2,
    load_tokenizer w a s = (Returned tok, s0)
    ∧ load_and_build w a tok s1
      = (Returned (dataset train_loader, dataset val_loader), s2)
    ∧ collate_pad train_loader = pad_token_id tok
    ∧ collate_pad val_loader = pad_token_id tok.
Proof.
  intros Hrun. unfold create_dataloaders in Hrun.
  inv_bind Hrun. rename Hstep into Htok.
  inv_bind Hrun. apply try_on_error_Returned in Hstep.
  rename Hstep into Hbuild.
  destruct a1 as [train_dataset val_dataset].
  unfold make_loaders in Hrun.
  destruct (use_ddp a);
    inv_bind Hrun; clear Hstep; inv_bind Hrun; clear Hstep;
    injection Hrun as <- <- <- _; eauto 10.
Qed.

(** C1 (as the code has it). When [create_dataloaders] returns on rank 0,
    every record of the validation dataset has a target-language text and
    none of these texts occurs among the target-language texts of the
    training split that was loaded.  On any other rank the validation
    dataset holds the validation split exactly as it was loaded, unfiltered. *)
Theorem validation_leak_free_on_rank0 (w : World) (a : Args) (s s' : state)
    (train_loader val_loader : DataLoader) (tok : Tokenizer) :
  create_dataloaders w a s = (Returned (train_loader, val_loader, tok), s') →
  ∃ train val,
    load_dataset w (dataset_name a) "train" = Ok train
    ∧ load_dataset w (dataset_name a) "validation" = Ok val
    ∧ (rank a = 0 →
       data (dataset val_loader) = filter (λ r, ¬ leaked train r) val
       ∧ Forall has_de (data (dataset val_loader))
       ∧ leak_free train (data (dataset val_loader)))
    ∧ (rank a ≠ 0 → data (dataset val_loader) = val).
Proof.
  intros Hrun.
  apply create_dataloaders_Returned in Hrun as (s0 & s1 & s2 & _ & Hbuild & _).
  apply load_and_build_Returned in Hbuild as (train & val & Htrain & Hval & Hcase).
  exists train, val. split_and!; [done..| |].
  - intros Hrank. unfold is_rank0 in Hcase.
    rewrite bool_decide_true in Hcase by done.
    destruct Hcase as (t1 & t2 & Hcheck).
    destruct (leakage_check_Returned _ _ _ _ _ Hcheck) as [Hwf_train Hwf_val].
    rewrite leakage_check_run in Hcheck by done.
    injection Hcheck as <- _. split_and!.
    + done.
    + by apply Forall_has_de_filter.
    + intros r Hr. by apply list_elem_of_filter in Hr as [? _].
  - intros Hrank. unfold is_rank0 in Hcase.
    by rewrite bool_decide_false in Hcase.
Qed.

Lemma validation_leak_free_on_rank0_witness :
  ∃ train val,
    load_dataset Sample.machine "bentrevett/multi30k" "train" = Ok train
    ∧ load_dataset Sample.machine "bentrevett/multi30k" "validation" = Ok val
    ∧ (0 = 0 →
       data (dataset Sample.val_loader0) = filter (λ r, ¬ leaked train r) val
       ∧ Forall has_de (data (dataset Sample.val_loader0))
       ∧ leak_free train (data (dataset Sample.val_loader0)))
    ∧ (0 ≠ 0 → data (dataset Sample.val_loader0) = val).
Proof.
  apply (validation_leak_free_on_rank0 Sample.machine Sample.args0
           Sample.start (printed Sample.lines0 Sample.start)
           Sample.train_loader0 Sample.val_loader0 Sample.loaded_tok).
  by vm_compute.
Defined.

(** C1 as stated fails: the process of rank 1 returns a validation dataset
    that still holds the record whose German text, "Hallo", is a training
    text. *)
Lemma validation_leaks_on_other_ranks :
  ¬ (∀ (w : World) (a : Args) (s s' : state)
       (train_loader val_loader : DataLoader) (tok : Tokenizer)
       (train : list record),
       create_dataloaders w a s
       = (Returned (train_loader, val_loader, tok), s') →
       load_dataset w (dataset_name a) "train" = Ok train →
       leak_free train (data (dataset val_loader))).
Proof.
  intros Hfree.
  apply (Hfree Sample.machine Sample.args1 Sample.start Sample.start
           Sample.train_loader1 Sample.val_loader1 Sample.loaded_tok
           [Sample.hallo; Sample.welt]) with (r := Sample.hi_hallo).
  - by vm_compute.
  - by vm_compute.
  - simpl. apply list_elem_of_here.
  - by vm_compute.
Qed.

(** C9 (as the code has it). Whatever exception the [try] block raises --
    while fetching the corpus, checking for leakage, taking the subset or
    building the datasets -- is caught: the process exits with status 1 and
    the exception does not reach the caller.  The error is printed on rank
    0 only; on the other ranks nothing is printed. *)
Theorem failure_in_try_exits (w : World) (a : Args) (s s1 s2 : state)
    (tok : Tokenizer) (e : exn) :
  load_tokenizer w a s = (Returned tok, s1) →
  load_and_build w a tok s1 = (Raised e, s2) →
  create_dataloaders w a s
  = (Exited 1, if is_rank0 a then printed [MsgFatal e] s2 else s2).
Proof.
  intros Htok Hbuild. unfold create_dataloaders.
  unfold mbind at 1, M_bind. rewrite Htok.
  unfold mbind at 1, M_bind, try_except. rewrite Hbuild.
  by rewrite on_error_run.
Qed.

Lemma failure_in_try_exits_witness :
  create_dataloaders Sample.offline Sample.args0 Sample.start
  = (Exited 1,
     printed [MsgFatal (OtherException "Couldn't reach the dataset on the Hub")]
       (printed (Sample.tokenizer_lines
                 ++ [MsgLoadingDataset "bentrevett/multi30k"]) Sample.start)).
Proof.
  apply (failure_in_try_exits Sample.offline Sample.args0 Sample.start
           (printed Sample.tokenizer_lines Sample.start)
           (printed (Sample.tokenizer_lines
                     ++ [MsgLoadingDataset "bentrevett/multi30k"]) Sample.start)
           Sample.loaded_tok
           (OtherException "Couldn't reach the dataset on the Hub")).
  - by vm_compute.
  - by vm_compute.
Defined.

(** C9 as stated fails: when the corpus cannot be fetched, the process of
    rank 1 exits with status 1 and has printed nothing. *)
Lemma failure_not_logged_on_other_ranks :
  ¬ (∀ (w : World) (a : Args) (s s1 s2 : state) (tok : Tokenizer) (e : exn),
       load_tokenizer w a s = (Returned tok, s1) →
       load_and_build w a tok s1 = (Raised e, s2) →
       ∃ status s',
         create_dataloaders w a s = (Exited status, s')
         ∧ status ≠ 0 ∧ MsgFatal e ∈ stdout s').
Proof.
  intros Hlogged.
  destruct (Hlogged Sample.offline Sample.args1 Sample.start Sample.start
              Sample.start Sample.loaded_tok
              (OtherException "Couldn't reach the dataset on the Hub"))
    as (status & s' & Hrun & _ & Hin).
  - by vm_compute.
  - by vm_compute.
  - vm_compute in Hrun. injection Hrun as _ <-.
    simpl in Hin. by apply elem_of_nil in Hin.
Qed.

(** ** Encoder *)

Lemma mapM_Ok_Forall2 {A B} (f : A → result B) (l : list A) (k : list B) :
  mapM f l = Ok k → Forall2 (λ x y, f x = Ok y) l k.
Proof.
  revert k. induction l as [|x l IH]; intros k.
  - intros [= <-]. constructor.
  - rewrite mapM_cons.
    destruct (f x) as [y|e] eqn:Hy; [|done]. simpl.
    destruct (mapM f l) as [k'|e] eqn:Hk; [|done]. simpl.
    intros [= <-]. constructor; [done|]. by apply IH.
Qed.

Section EncoderShapes.
Context `{Torch} `{!TorchForward} `{!TorchShapes}.

Lemma EncoderLayer_init_configured (d_model n_heads d_ff : nat)
    (rate : Float) (w : LayerWeights) (l : EncoderLayer) :
  EncoderLayer_init d_model n_heads d_ff rate w = Ok l →
  layer_configured d_model n_heads d_ff l.
Proof.
  unfold EncoderLayer_init, MultiHeadAttention_init.
  case_decide as Hdiv; [|done]. destruct Hdiv. simpl. intros [= <-].
  unfold layer_configured. simpl. by split_and!.
Qed.

Lemma Encoder_init_configured (n_layers : Z) (d_model n_heads d_ff : nat)
    (rate : Float) (init : nat → LayerWeights) (enc : Encoder) :
  Encoder_init n_layers d_model n_heads d_ff rate init = Ok enc →
  length (layers enc) = Z.to_nat n_layers
  ∧ Forall (layer_configured d_model n_heads d_ff) (layers enc).
Proof.
  unfold Encoder_init. rewrite bind_Ok. intros (ls & Hls & [= <-]). simpl.
  apply mapM_Ok_Forall2 in Hls. split.
  - apply Forall2_length in Hls. rewrite <-Hls. unfold range.
    by rewrite length_seq.
  - apply Forall_forall. intros l Hl.
    destruct (proj1 (list_elem_of_lookup _ _) Hl) as [i Hi].
    destruct (Forall2_lookup_r _ _ _ _ _ Hls Hi) as (j & _ & Hinit).
    by eapply EncoderLayer_init_configured.
Qed.

Lemma FeedForward_forward_shape (ff : FeedForward) (x : Tensor)
    (pre : list nat) :
  out_features (ff_linear1 ff) = in_features (ff_linear2 ff) →
  shape x = pre ++ [in_features (ff_linear1 ff)] →
  ∃ y, FeedForward_forward ff x = Ok y
       ∧ shape y = pre ++ [out_features (ff_linear2 ff)].
Proof.
  intros Hmid Hx. unfold FeedForward_forward.
  destruct (Linear_shape _ _ _ Hx) as (h & -> & Hh). simpl.
  apply Linear_shape.
  by rewrite Dropout_shape, GELU_shape, Hh, Hmid.
Qed.

Lemma EncoderLayer_forward_shape (d_model n_heads d_ff : nat)
    (l : EncoderLayer) (x : Tensor) (mask : option Tensor) (B T : nat) :
  layer_configured d_model n_heads d_ff l →
  shape x = [B; T; d_model] →
  mask_fits mask T →
  ∃ y, EncoderLayer_forward l x mask = Ok y ∧ shape y = [B; T; d_model].
Proof.
  intros (Hd & Hdiv & Hi1 & Ho1 & Hi2 & Ho2 & Hn1 & Hn2) Hx Hmask.
  unfold EncoderLayer_forward.
  destruct (MultiHeadAttention_shape (self_attention l) x mask B T)
    as (attn & -> & Hattn); [done | by rewrite Hd | done |]. simpl.
  destruct (add_shape x (Dropout_forward (dropout l) attn))
    as (s1 & -> & Hs1); [by rewrite Dropout_shape|]. simpl.
  destruct (LayerNorm_shape (norm1 l) s1 [B; T])
    as (x1 & -> & Hx1); [by rewrite Hs1, Hx, Hn1|]. simpl.
  rewrite Hs1, Hx in Hx1.
  destruct (FeedForward_forward_shape (feed_forward l) x1 [B; T])
    as (ff & -> & Hff); [by rewrite Ho1, Hi2 | by rewrite Hx1, Hi1 |]. simpl.
  rewrite Ho2 in Hff.
  destruct (add_shape x1 (Dropout_forward (dropout l) ff))
    as (s2 & -> & Hs2); [by rewrite Dropout_shape, Hx1, Hff|]. simpl.
  rewrite Hx1 in Hs2.
  destruct (LayerNorm_shape (norm2 l) s2 [B; T])
    as (x2 & -> & Hx2); [by rewrite Hs2, Hn2|]. simpl.
  exists x2. by rewrite Hx2, Hs2.
Qed.

Lemma forward_loop_shape (d_model n_heads d_ff : nat)
    (ls : list EncoderLayer) (x : Tensor) (mask : option Tensor)
    (B T : nat) :
  Forall (layer_configured d_model n_heads d_ff) ls →
  shape x = [B; T; d_model] →
  mask_fits mask T →
  ∃ y, forward_loop ls x mask = Ok y ∧ shape y = [B; T; d_model].
Proof.
  intros Hls. revert x. induction Hls as [|l ls Hl _ IH]; intros x Hx Hmask.
  - by exists x.
  - simpl.
    destruct (EncoderLayer_forward_shape _ _ _ l x mask B T Hl Hx Hmask)
      as (x' & -> & Hx'). simpl.
    by apply IH.
Qed.

(** C6. An encoder built with [n_layers >= 1] layers maps every input of
    shape [[B, T, D]] ([D] the model dimension, with a mask [[*, T, T]] or
    none) to a tensor of the same shape; an encoder built with
    [n_layers = 0] has no layer, and its [forward] returns its input
    unchanged. *)
Theorem Encoder_forward_shape :
  (∀ (n_layers : Z) (d_model n_heads d_ff : nat) (rate : Float)
     (init : nat → LayerWeights) (enc : Encoder) (x : Tensor)
     (mask : option Tensor) (B T : nat),
     1 ≤ n_layers →
     Encoder_init n_layers d_model n_heads d_ff rate init = Ok enc →
     shape x = [B; T; d_model] →
     mask_fits mask T →
     ∃ y, Encoder_forward enc x mask = Ok y ∧ shape y = shape x)
  ∧ (∀ (d_model n_heads d_ff : nat) (rate : Float)
       (init : nat → LayerWeights) (x : Tensor) (mask : option Tensor),
       ∃ enc, Encoder_init 0 d_model n_heads d_ff rate init = Ok enc
              ∧ Encoder_forward enc x mask = Ok x).
Proof.
  split.
  - intros n_layers d_model n_heads d_ff rate init enc x mask B T
      _ Henc Hx Hmask.
    apply Encoder_init_configured in Henc as [_ Hls].
    unfold Encoder_forward. rewrite Hx.
    by eapply forward_loop_shape.
  - intros d_model n_heads d_ff rate init x mask.
    by exists (mkEncoder []).
Qed.
End EncoderShapes.

(** The shape-only tensors satisfy the shape contracts. *)
Lemma ShapeOnly_shapes : @TorchShapes ShapeOnly.torch ShapeOnly.forward.
Proof.
  split; simpl.
  - intros x y ->. exists y. unfold ShapeOnly.add_shapes.
    by rewrite decide_True.
  - intros l x pre ->. eexists. unfold ShapeOnly.linear_shapes, ShapeOnly.last_is.
    rewrite bool_decide_true by apply last_snoc.
    split; [reflexivity|]. unfold ShapeOnly.with_last.
    by rewrite removelast_last.
  - done.
  - done.
  - intros n x pre ->. eexists.
    unfold ShapeOnly.layernorm_shapes, ShapeOnly.last_is.
    by rewrite bool_decide_true by apply last_snoc.
  - intros m x mask B T _ -> Hmask. exists [B; T; mha_d_model m].
    unfold ShapeOnly.attention_shapes.
    rewrite bool_decide_true by done.
    assert (ShapeOnly.mask_ok mask T = true) as ->; [|done].
    destruct mask as [mk|]; [|done]. destruct Hmask as [pre Hpre].
    simpl in Hpre. subst mk.
    unfold ShapeOnly.mask_ok. rewrite bool_decide_true; [done|].
    rewrite drop_app_length'; [done|]. rewrite length_app. simpl. lia.
Qed.

Lemma Encoder_forward_shape_witness :
  (∃ y, @Encoder_forward ShapeOnly.torch ShapeOnly.forward
          ShapeSample.encoder ShapeSample.input ShapeSample.mask = Ok y
        ∧ y = ShapeSample.input)
  ∧ (∃ enc, @Encoder_init ShapeOnly.torch 0 8 3 32 () ShapeSample.weights
            = Ok enc
            ∧ @Encoder_forward ShapeOnly.torch ShapeOnly.forward
                enc ShapeSample.input None = Ok ShapeSample.input).
Proof.
  split.
  - apply (proj1 (@Encoder_forward_shape ShapeOnly.torch ShapeOnly.forward
                    ShapeOnly_shapes)
             2 8%nat 2%nat 32%nat () ShapeSample.weights ShapeSample.encoder
             ShapeSample.input ShapeSample.mask 4%nat 7%nat).
    + lia.
    + reflexivity.
    + reflexivity.
    + by exists [].
  - apply (proj2 (@Encoder_forward_shape ShapeOnly.torch ShapeOnly.forward
                    ShapeOnly_shapes)).
Defined.

(** * Further properties *)

(** ** TranslationDataset.__getitem__: indices, keys, content *)



(** X2. On a record without a ['translation'] entry, [__getitem__] raises
    [KeyError] for the first language key that the record lacks: the
    source key if it is missing, else the target key. *)
Theorem getitem_missing_key (ds : TranslationDataset) (i : nat)
    (item : record) :
  data ds !! i = Some item →
  item !! "translation" = None →
  (item !! (lang_keys ds).1 = None →
   TranslationDataset_getitem ds (Z.of_nat i)
   = Raise (KeyError (lang_keys ds).1))
  ∧ (is_Some (item !! (lang_keys ds).1) → item !! (lang_keys ds).2 = None →
     TranslationDataset_getitem ds (Z.of_nat i)
     = Raise (KeyError (lang_keys ds).2)).
Proof.
  intros Hi Htr. unfold TranslationDataset_getitem.
  rewrite (list_getitem_nat _ _ _ Hi). simpl. unfold transform, texts_of.
  rewrite decide_False by (rewrite Htr; by intros [? ?]).
  unfold getitem. split.
  - by intros ->.
  - intros [v ->] ->. done.
Qed.

Lemma getitem_missing_key_witness :
  TranslationDataset_getitem
    (TranslationDataset_init [Sample.x_hallo] Sample.tok (Some 8) None) 0
  = Raise (KeyError "en").
Proof.
  apply (getitem_missing_key
           (TranslationDataset_init [Sample.x_hallo] Sample.tok (Some 8) None)
           0 Sample.x_hallo); reflexivity.
Defined.

(** X3. When a record has a ['translation'] dictionary, only that
    dictionary is read: entries of the record under the language keys
    themselves are ignored. *)
Theorem getitem_nested_first (ds : TranslationDataset) (item : record)
    (d : gmap string string) :
  item !! "translation" = Some (VDict d) →
  transform ds item = transform ds {[ "translation" := VDict d ]}.
Proof.
  intros Htr. unfold transform, texts_of.
  rewrite !decide_True; [|by rewrite lookup_singleton_eq; eauto|by rewrite Htr; eauto].
  unfold getitem. by rewrite Htr, lookup_singleton_eq.
Qed.

Lemma getitem_nested_first_witness :
  transform Sample.ds (<[ "en" := VStr "ignored" ]> Sample.nested)
  = transform Sample.ds
      {[ "translation" := VDict {[ "en" := "a dog"; "de" := "ein Hund" ]} ]}.
Proof.
  apply (getitem_nested_first Sample.ds). reflexivity.
Defined.

(** X4. The content between the markers is the tokenizer's ids of the
    text, cut after [max_length - 2] ids, for each side on its own; a text
    with at most [max_length - 2] ids is kept whole. *)
Theorem getitem_content (ds : TranslationDataset) (i : nat) (item : record)
    (s t : string) :
  2 ≤ max_length ds →
  data ds !! i = Some item →
  texts_of (lang_keys ds) item = Ok (VStr s, VStr t) →
  let bos := default 1 (bos_token_id (tokenizer ds)) in
  let eos := default 2 (eos_token_id (tokenizer ds)) in
  let room := Z.to_nat (max_length ds - 2) in
  ∃ r, TranslationDataset_getitem ds (Z.of_nat i) = Ok r
    ∧ src r = [bos] ++ take room (tokenize (tokenizer ds) s) ++ [eos]
    ∧ tgt r = [bos] ++ take room (tokenize (tokenizer ds) t) ++ [eos]
    ∧ ((length (tokenize (tokenizer ds) s) ≤ room)%nat →
       src r = [bos] ++ tokenize (tokenizer ds) s ++ [eos])
    ∧ ((length (tokenize (tokenizer ds) t) ≤ room)%nat →
       tgt r = [bos] ++ tokenize (tokenizer ds) t ++ [eos]).
Proof.
  intros HL Hi Htexts bos eos room. unfold TranslationDataset_getitem.
  rewrite (list_getitem_nat _ _ _ Hi). simpl. unfold transform.
  rewrite Htexts. simpl. unfold encode_pair, encode.
  fold room bos eos.
  destruct (returns_list (tokenizer ds)); simpl;
    (eexists; split; [reflexivity|]); simpl;
    (split_and!; [done | done | by intros ?; rewrite take_ge | by intros ?; rewrite take_ge]).
Qed.

Lemma getitem_content_witness :
  ∃ r, TranslationDataset_getitem Sample.ds 0 = Ok r
    ∧ src r = [1] ++ take 6 (Sample.char_ids "a man on a horse") ++ [2]
    ∧ tgt r = [1] ++ take 6 (Sample.char_ids "ein Mann") ++ [2]
    ∧ ((length (Sample.char_ids "a man on a horse") ≤ 6)%nat →
       src r = [1] ++ Sample.char_ids "a man on a horse" ++ [2])
    ∧ ((length (Sample.char_ids "ein Mann") ≤ 6)%nat →
       tgt r = [1] ++ Sample.char_ids "ein Mann" ++ [2]).
Proof.
  apply (getitem_content Sample.ds 0 Sample.flat "a man on a horse" "ein Mann").
  - simpl. lia.
  - reflexivity.
  - reflexivity.
Defined.

(** ** collate_fn: width, padding that can be undone, framed items *)

















(** ** leakage_check: records without a target text, training order *)

Lemma de_of_Raise (r : record) (e : exn) : de_of r = Raise e → de_error e.
Proof.
  unfold de_of, getitem, de_error.
  destruct (r !! "de") as [[t|m]|]; simpl; intros [= <-]; auto.
Qed.

Lemma mapM_de_of_Raise (l : list record) (e : exn) :
  mapM de_of l = Raise e → de_error e.
Proof.
  induction l as [|r l IH]; [done|]. rewrite mapM_cons.
  destruct (de_of r) as [d|e'] eqn:Hd; simpl.
  - destruct (mapM de_of l) as [ds|e'']; simpl; [done|].
    intros [= <-]. by apply IH.
  - intros [= <-]. by eapply de_of_Raise.
Qed.

Lemma de_in_Raise (T : gset string) (r : record) (e : exn) :
  de_in T r = Raise e → de_error e.
Proof.
  unfold de_in. destruct (de_of r) as [d|e'] eqn:Hd; simpl; [done|].
  intros [= <-]. by eapply de_of_Raise.
Qed.

Lemma filter_with_de_in_Raise (T : gset string) (l : list record) (e : exn) :
  filter_with (de_in T) l = Raise e → de_error e.
Proof.
  induction l as [|r l IH]; [done|]. simpl.
  destruct (de_in T r) as [b|e'] eqn:Hb; simpl.
  - destruct (filter_with (de_in T) l) as [k|e'']; simpl; [done|].
    intros [= <-]. by apply IH.
  - intros [= <-]. by eapply de_in_Raise.
Qed.

Lemma leakage_check_raises (train val : list record) (s : state) :
  ¬ (Forall has_de train ∧ Forall has_de val) →
  ∃ e, de_error e
       ∧ leakage_check train val s = (Raised e, printed [MsgLeakageCheck] s).
Proof.
  intros Hbad. unfold leakage_check. rewrite print_bind.
  destruct (de_set train) as [T|e] eqn:HT.
  - apply de_set_Ok in HT as [Htrain ->]. rewrite lift_Ok_bind.
    destruct (filter_with (de_in (de_sentences train)) val) as [k|e] eqn:Hk.
    + destruct Hbad. split; [done|].
      eapply (filter_with_Ok_has_de de_in); [|done].
      intros r b Hb. by apply de_in_Ok in Hb as [? _].
    + rewrite lift_Raise_bind. exists e. split; [|done].
      by eapply filter_with_de_in_Raise.
  - rewrite lift_Raise_bind. exists e. split; [|done].
    unfold de_set in HT. destruct (mapM de_of train) as [ds|e'] eqn:Hm; [done|].
    injection HT as <-. by eapply mapM_de_of_Raise.
Qed.

(** X9. When some training or validation record has no usable ['de'] text
    (no such key, or a dictionary under it), the leakage check raises
    [KeyError('de')] or the [TypeError] of an unhashable entry; it has then
    printed its first line only and removed nothing. *)
Theorem leakage_check_malformed (train val : list record) (s : state) :
  ¬ (Forall has_de train ∧ Forall has_de val) →
  ∃ e, de_error e
       ∧ leakage_check train val s = (Raised e, printed [MsgLeakageCheck] s).
Proof. apply leakage_check_raises. Qed.

Lemma leakage_check_malformed_witness :
  ∃ e, de_error e
       ∧ leakage_check [Sample.hallo] [Sample.nested] Sample.start
         = (Raised e, printed [MsgLeakageCheck] Sample.start).
Proof.
  apply (leakage_check_malformed [Sample.hallo] [Sample.nested] Sample.start).
  by apply (bool_decide_unpack _); vm_compute.
Defined.

Lemma de_sentences_same_elements (l1 l2 : list record) :
  (∀ r, r ∈ l1 ↔ r ∈ l2) → de_sentences l1 = de_sentences l2.
Proof.
  intros Hsame. apply set_eq. intros d. unfold de_sentences.
  rewrite !elem_of_list_to_set, !list_elem_of_omap.
  by setoid_rewrite Hsame.
Qed.

(** X10. Only the set of training texts matters to the leakage check: two
    training collections with the same records, in any order and with any
    number of repetitions, give the same validation records and the same
    output. *)
Theorem leakage_check_training_order (train1 train2 val : list record)
    (s : state) :
  Forall has_de train1 →
  (∀ r, r ∈ train1 ↔ r ∈ train2) →
  leakage_check train1 val s = leakage_check train2 val s.
Proof.
  intros Hwf Hsame.
  assert (Forall has_de train2) as Hwf2.
  { rewrite Forall_forall in Hwf |- *. intros r Hr. apply Hwf. by apply Hsame. }
  unfold leakage_check. rewrite !print_bind.
  assert (de_set train1 = Ok (de_sentences train1)) as ->
    by by apply de_set_Ok.
  assert (de_set train2 = Ok (de_sentences train2)) as ->
    by by apply de_set_Ok.
  by rewrite (de_sentences_same_elements train1 train2).
Qed.

Lemma leakage_check_training_order_witness :
  leakage_check [Sample.hallo; Sample.welt]
    [Sample.hi_hallo; Sample.cat_katze] Sample.start
  = leakage_check [Sample.welt; Sample.hallo; Sample.welt]
      [Sample.hi_hallo; Sample.cat_katze] Sample.start.
Proof.
  apply (leakage_check_training_order [Sample.hallo; Sample.welt]
           [Sample.welt; Sample.hallo; Sample.welt]).
  - by apply (bool_decide_unpack _); vm_compute.
  - intros r. rewrite !elem_of_cons, !elem_of_nil. tauto.
Defined.

(** ** create_dataloaders: what a run may change *)

Section Respects.
Context (R : relation state) `{!Reflexive R} `{!Transitive R}.








End Respects.








#[local] Instance grows_only_refl (w : World) : Reflexive (grows_only w).
Proof. intros s. unfold grows_only. split_and!; [done..|]. by intros q ??. Qed.

#[local] Instance grows_only_trans (w : World) : Transitive (grows_only w).
Proof.
  intros s1 s2 s3 (Hout12 & Hfs12 & Hgone12) (Hout23 & Hfs23 & Hgone23).
  unfold grows_only. split_and!.
  - by etrans.
  - by etrans.
  - intros q Hq1 Hq3. destruct (decide (q ∈ fs s2)); [by apply Hgone23|].
    by apply Hgone12.
Qed.







(** ** clear_cache *)

Lemma under_self (p : string) : under p p = true.
Proof. unfold under. by rewrite bool_decide_true. Qed.

Lemma clear_cache_absent (w : World) (s : state) :
  cache_path w ∉ fs s →
  clear_cache w s
  = (Returned (), printed [MsgCheckingCache; MsgCacheNotFound] s).
Proof.
  intros Habsent. unfold clear_cache. cbv zeta. fold (cache_path w).
  rewrite print_bind. unfold os_path_exists, mbind at 1, M_bind.
  rewrite bool_decide_false by done.
  unfold print, printed. simpl. by rewrite <-(assoc_L (++)).
Qed.

Lemma clear_cache_present (w : World) (s : state) :
  cache_path w ∈ fs s →
  clear_cache w s
  = match rmtree_error w with
    | None =>
        (Returned (),
         mkState (stdout s ++ [MsgCheckingCache; MsgFoundCache (cache_path w);
                               MsgDeletingCache; MsgCacheDeleted])
                 (filter (λ q, under (cache_path w) q = false) (fs s)))
    | Some e =>
        (Returned (),
         printed [MsgCheckingCache; MsgFoundCache (cache_path w);
                  MsgDeletingCache; MsgErrorDeletingCache e; MsgManualHint] s)
    end.
Proof.
  intros Hpresent. unfold clear_cache. cbv zeta. fold (cache_path w).
  rewrite print_bind. unfold os_path_exists, mbind at 1, M_bind.
  rewrite bool_decide_true by done.
  rewrite !print_bind. unfold try_except, shutil_rmtree.
  destruct (rmtree_error w) as [e|].
  - unfold mbind at 1, M_bind, raise. rewrite !print_bind, !printed_app.
    unfold print, printed. simpl. by rewrite <-!(assoc_L (++)).
  - unfold mbind, M_bind, print, printed. simpl.
    by rewrite <-!(assoc_L (++)).
Qed.

(** X13. When deleting works, clearing the cache leaves no cache
    directory, keeps every path that is not the directory or below it, and
    clearing again finds nothing to do. *)
Theorem clear_cache_clears (w : World) (s : state) :
  rmtree_error w = None →
  ∃ s', clear_cache w s = (Returned (), s')
    ∧ (cache_path w ∉ fs s')
    ∧ (∀ q, under (cache_path w) q = false → (q ∈ fs s' ↔ q ∈ fs s))
    ∧ clear_cache w s'
      = (Returned (), printed [MsgCheckingCache; MsgCacheNotFound] s').
Proof.
  intros Hrm. destruct (decide (cache_path w ∈ fs s)) as [Hin|Hout].
  - rewrite clear_cache_present, Hrm by done. eexists. split; [reflexivity|].
    assert (cache_path w
            ∉ filter (λ q, under (cache_path w) q = false) (fs s)) as Hgone.
    { intros Hq. apply elem_of_filter in Hq as [Hq _].
      by rewrite under_self in Hq. }
    simpl. split_and!.
    + done.
    + intros q Hq. rewrite elem_of_filter. tauto.
    + by apply clear_cache_absent.
  - rewrite clear_cache_absent by done. eexists. split; [reflexivity|].
    simpl. split_and!; [done..|]. by apply clear_cache_absent.
Qed.

Lemma clear_cache_clears_witness :
  ∃ s', clear_cache Sample.machine Sample2.cached = (Returned (), s')
    ∧ (cache_path Sample.machine ∉ fs s')
    ∧ (∀ q, under (cache_path Sample.machine) q = false
            → (q ∈ fs s' ↔ q ∈ fs Sample2.cached))
    ∧ clear_cache Sample.machine s'
      = (Returned (), printed [MsgCheckingCache; MsgCacheNotFound] s').
Proof.
  apply (clear_cache_clears Sample.machine Sample2.cached). reflexivity.
Defined.



(** ** create_dataloaders: arguments and failures *)


Lemma try_block_raised (w : World) (a : Args) (s s1 s2 : state)
    (tok : Tokenizer) (e : exn) :
  load_tokenizer w a s = (Returned tok, s1) →
  load_and_build w a tok s1 = (Raised e, s2) →
  create_dataloaders w a s
  = (Exited 1, if is_rank0 a then printed [MsgFatal e] s2 else s2).
Proof.
  intros Htok Hbuild. unfold create_dataloaders.
  unfold mbind at 1, M_bind. rewrite Htok.
  unfold mbind at 1, M_bind, try_except. rewrite Hbuild.
  by rewrite on_error_run.
Qed.


Lemma load_tokenizer_raises (w : World) (a : Args) (s : state) (e : exn) :
  tokenizer_file w ∈ fs (after_cache w a s) →
  PreTrainedTokenizerFast w (tokenizer_file w) = Raise e →
  load_tokenizer w a s
  = (Raised e,
     if is_rank0 a
     then printed [MsgLoadingTokenizer (tokenizer_file w)] (after_cache w a s)
     else after_cache w a s).
Proof.
  intros Hin Hload. unfold load_tokenizer.
  destruct (after_cache_run w a s) as (Hcache & _ & _).
  unfold mbind at 1, M_bind. rewrite Hcache.
  unfold os_path_exists, mbind at 1, M_bind.
  rewrite bool_decide_true by done.
  change (negb true) with false. cbv iota.
  by rewrite when_print_bind, Hload, lift_Raise_bind.
Qed.

(** X16. A tokenizer file that is present but cannot be loaded is not a
    fatal exit: the exception of the tokenizer constructor is raised to
    the caller, before any corpus is fetched. *)
Theorem tokenizer_failure_is_raised (w : World) (a : Args) (s : state)
    (e : exn) :
  tokenizer_file w ∈ fs (after_cache w a s) →
  PreTrainedTokenizerFast w (tokenizer_file w) = Raise e →
  create_dataloaders w a s
  = (Raised e,
     if is_rank0 a
     then printed [MsgLoadingTokenizer (tokenizer_file w)] (after_cache w a s)
     else after_cache w a s).
Proof.
  intros Hin Hload. unfold create_dataloaders.
  unfold mbind at 1, M_bind. by rewrite (load_tokenizer_raises w a s e).
Qed.

Lemma tokenizer_failure_is_raised_witness :
  create_dataloaders Sample2.broken_tokenizer Sample.args0 Sample.start
  = (Raised (OtherException "expected value at line 1 column 1"),
     printed [MsgLoadingTokenizer "/repo/src/../en-de-tokenizer.json"]
       (printed [MsgCheckingCache; MsgCacheNotFound] Sample.start)).
Proof.
  apply (tokenizer_failure_is_raised Sample2.broken_tokenizer Sample.args0
           Sample.start (OtherException "expected value at line 1 column 1")).
  - by apply (bool_decide_unpack _); vm_compute.
  - reflexivity.
Defined.



(** X18. A corpus with a record that has no usable ['de'] text -- such as
    the records that keep their texts under ['translation'], which
    [__getitem__] accepts -- cannot be used on rank 0: the leakage check
    raises and the process exits with status 1. *)
Theorem malformed_corpus_exits_on_rank0 (w : World) (a : Args)
    (s s1 : state) (tok : Tokenizer) (train val : list record) :
  rank a = 0 →
  load_tokenizer w a s = (Returned tok, s1) →
  load_dataset w (dataset_name a) "train" = Ok train →
  load_dataset w (dataset_name a) "validation" = Ok val →
  ¬ (Forall has_de train ∧ Forall has_de val) →
  ∃ e, de_error e
       ∧ create_dataloaders w a s
         = (Exited 1,
            printed [MsgLoadingDataset (dataset_name a); MsgLeakageCheck;
                     MsgFatal e] s1).
Proof.
  intros Hrank Htok Htrain Hval Hbad.
  assert (is_rank0 a = true) as Hr by by apply bool_decide_true.
  destruct (leakage_check_raises train val
              (printed [MsgLoadingDataset (dataset_name a)] s1) Hbad)
    as (e & He & Hcheck).
  exists e. split; [done|].
  rewrite (try_block_raised w a s s1
             (printed [MsgLoadingDataset (dataset_name a); MsgLeakageCheck] s1)
             tok e Htok).
  - by rewrite Hr, printed_app.
  - unfold load_and_build. rewrite Hr, when_print_bind, Htrain, lift_Ok_bind,
      Hval, lift_Ok_bind.
    unfold mbind at 1, M_bind. by rewrite Hcheck, printed_app.
Qed.

Lemma malformed_corpus_exits_on_rank0_witness :
  ∃ e, de_error e
       ∧ create_dataloaders Sample2.nested_machine Sample.args0 Sample.start
         = (Exited 1,
            printed [MsgLoadingDataset "bentrevett/multi30k"; MsgLeakageCheck;
                     MsgFatal e]
              (printed Sample.tokenizer_lines Sample.start)).
Proof.
  apply (malformed_corpus_exits_on_rank0 Sample2.nested_machine Sample.args0
           Sample.start (printed Sample.tokenizer_lines Sample.start)
           Sample.loaded_tok [Sample.nested] [Sample.nested]).
  - reflexivity.
  - by vm_compute.
  - reflexivity.
  - reflexivity.
  - by apply (bool_decide_unpack _); vm_compute.
Defined.

(** ** create_dataloaders: what is returned *)

Lemma when_print_Returned (b : bool) (msg : message) (u : ()) (s s' : state) :
  when b (print msg) s = (Returned u, s') →
  s' = if b then printed [msg] s else s.
Proof. destruct b; by intros [= _ <-]. Qed.

Lemma subset_step_Returned (w : World) (a : Args) (train l : list record)
    (s s' : state) :
  match subset_size a with
  | Some n =>
      if decide (n < Z.of_nat (length train)) then
        when (is_rank0 a) (print (MsgUsingSubset n));;
        mret (take (Z.to_nat n) (shuffle w (seed a + 1) train))
      else mret train
  | None => mret train
  end s = (Returned l, s') →
  l = training_records w a train.
Proof.
  unfold training_records. destruct (subset_size a) as [n|].
  - case_decide.
    + intros Hrun. inv_bind Hrun. by injection Hrun as <- _.
    + by intros [= <- _].
  - by intros [= <- _].
Qed.

(** What a run of the [try] block that returns has done. *)
Lemma load_and_build_inv (w : World) (a : Args) (tok : Tokenizer)
    (s s' : state) (tr va : TranslationDataset) :
  load_and_build w a tok s = (Returned (tr, va), s') →
  ∃ train val kept L s_mid,
    load_dataset w (dataset_name a) "train" = Ok train
    ∧ load_dataset w (dataset_name a) "validation" = Ok val
    ∧ max_seq_len (model_config a) = Some L
    ∧ (if is_rank0 a
       then ∃ t1 t2, leakage_check train val t1 = (Returned kept, t2)
       else kept = val)
    ∧ tr = TranslationDataset_init (training_records w a train) tok (Some L) None
    ∧ va = TranslationDataset_init kept tok (Some L) None
    ∧ s' = (if is_rank0 a
            then printed [MsgUsing (length (training_records w a train))
                            (length kept)] s_mid
            else s_mid).
Proof.
  intros Hrun. unfold load_and_build in Hrun.
  inv_bind Hrun. clear Hstep.
  inv_bind Hrun. apply lift_Returned in Hstep as [Htrain ->].
  inv_bind Hrun. apply lift_Returned in Hstep as [Hval ->].
  inv_bind Hrun. rename Hstep into Hcheck.
  inv_bind Hrun. apply subset_step_Returned in Hstep as ->.
  inv_bind Hrun. apply when_print_Returned in Hstep as ->.
  inv_bind Hrun. apply lift_Returned in Hstep as [HL1 ->].
  inv_bind Hrun. apply lift_Returned in Hstep as [HL2 ->].
  injection Hrun as <- <- <-.
  destruct (max_seq_len (model_config a)) as [L|]; [|done].
  injection HL1 as <-. injection HL2 as <-.
  exists a1, a2, a3, L, s2. split_and!; try done.
  destruct (is_rank0 a); [eauto|]. by injection Hcheck as ->.
Qed.

Lemma make_loaders_inv (a : Args) (tok tok' : Tokenizer)
    (tr va : TranslationDataset) (tl vl : DataLoader) (s s' : state) :
  make_loaders a tok tr va s = (Returned (tl, vl, tok'), s') →
  ∃ b, batch_size (training_config a) = Some b
    ∧ tl = mkDataLoader tr b (pad_token_id tok)
             (if use_ddp a
              then Some (mkDistributedSampler (world_size a) (rank a) true)
              else None)
             (negb (use_ddp a))
             (default 2 (num_workers (training_config a))) true
    ∧ vl = mkDataLoader va b (pad_token_id tok)
             (if use_ddp a
              then Some (mkDistributedSampler (world_size a) (rank a) false)
              else None)
             false
             (default 2 (num_workers (training_config a))) true
    ∧ tok' = tok ∧ s' = s.
Proof.
  unfold make_loaders.
  destruct (batch_size (training_config a)) as [b|]; [|by destruct (use_ddp a)].
  destruct (use_ddp a); intros [= <- <- <- <-]; by exists b.
Qed.

(** Everything a returning call has done, in one statement. *)
Lemma create_dataloaders_inv (w : World) (a : Args) (s s' : state)
    (tl vl : DataLoader) (tok : Tokenizer) :
  create_dataloaders w a s = (Returned (tl, vl, tok), s') →
  ∃ s1 tr va,
    load_tokenizer w a s = (Returned tok, s1)
    ∧ load_and_build w a tok s1 = (Returned (tr, va), s')
    ∧ make_loaders a tok tr va s' = (Returned (tl, vl, tok), s').
Proof.
  intros Hrun. unfold create_dataloaders in Hrun.
  inv_bind Hrun. rename Hstep into Htok.
  inv_bind Hrun. apply try_on_error_Returned in Hstep.
  destruct a1 as [tr va].
  destruct (make_loaders_inv _ _ _ _ _ _ _ _ _ Hrun) as (b & _ & _ & _ & -> & ->).
  eauto 10.
Qed.

(** X19. The two datasets of a returning call are built alike: both hold
    the returned tokenizer, both cut at [model_config.max_seq_len], both
    read the keys ['en'] and ['de']; and the validation records are never
    subsetted or shuffled. *)
Theorem datasets_are_built_alike (w : World) (a : Args) (s s' : state)
    (tl vl : DataLoader) (tok : Tokenizer) :
  create_dataloaders w a s = (Returned (tl, vl, tok), s') →
  tokenizer (dataset tl) = tok ∧ tokenizer (dataset vl) = tok
  ∧ (∃ L, max_seq_len (model_config a) = Some L
          ∧ max_length (dataset tl) = L ∧ max_length (dataset vl) = L)
  ∧ lang_keys (dataset tl) = ("en", "de")
  ∧ lang_keys (dataset vl) = ("en", "de")
  ∧ ∃ val, load_dataset w (dataset_name a) "validation" = Ok val
           ∧ data (dataset vl) `sublist_of` val.
Proof.
  intros Hrun.
  apply create_dataloaders_inv in Hrun as (s1 & tr & va & _ & Hbuild & Hmake).
  apply make_loaders_inv in Hmake as (b & _ & -> & -> & _ & _).
  apply load_and_build_inv in Hbuild
    as (train & val & kept & L & s_mid & _ & Hval & HL & Hkept & -> & -> & _).
  simpl. split_and!; try done.
  - by exists L.
  - exists val. split; [done|]. destruct (is_rank0 a).
    + destruct Hkept as (t1 & t2 & Hcheck).
      destruct (leakage_check_Returned _ _ _ _ _ Hcheck) as [Hwf1 Hwf2].
      rewrite leakage_check_run in Hcheck by done.
      injection Hcheck as <- _. apply sublist_filter.
    + by subst kept.
Qed.

Lemma datasets_are_built_alike_witness :
  tokenizer (dataset Sample.train_loader0) = Sample.loaded_tok
  ∧ tokenizer (dataset Sample.val_loader0) = Sample.loaded_tok
  ∧ (∃ L, max_seq_len (model_config Sample.args0) = Some L
          ∧ max_length (dataset Sample.train_loader0) = L
          ∧ max_length (dataset Sample.val_loader0) = L)
  ∧ lang_keys (dataset Sample.train_loader0) = ("en", "de")
  ∧ lang_keys (dataset Sample.val_loader0) = ("en", "de")
  ∧ ∃ val, load_dataset Sample.machine "bentrevett/multi30k" "validation"
           = Ok val
           ∧ data (dataset Sample.val_loader0) `sublist_of` val.
Proof.
  apply (datasets_are_built_alike Sample.machine Sample.args0 Sample.start
           (printed Sample.lines0 Sample.start)).
  by vm_compute.
Defined.





Lemma length_training_records (w : World) (a : Args) (train : list record) :
  (∀ sd l, length (shuffle w sd l) = length l) →
  length (training_records w a train)
  = match subset_size a with
    | Some n => Z.to_nat (Z.min n (Z.of_nat (length train)))
    | None => length train
    end.
Proof.
  intros Hshuffle. unfold training_records.
  destruct (subset_size a) as [n|]; [|done]. case_decide.
  - rewrite length_take, Hshuffle. lia.
  - lia.
Qed.

(** X22. Size of the training dataset, for a shuffle that keeps the number
    of records: without [subset_size] it is the size of the training
    split; with [subset_size = n] it is [n] cut to the range from 0 to the
    size of the split -- so [n <= 0] leaves no training record at all.
    When no subset is taken the training records are the split itself, in
    its order. *)
Theorem training_dataset_size (w : World) (a : Args) (s s' : state)
    (tl vl : DataLoader) (tok : Tokenizer) :
  (∀ sd l, length (shuffle w sd l) = length l) →
  create_dataloaders w a s = (Returned (tl, vl, tok), s') →
  ∃ train,
    load_dataset w (dataset_name a) "train" = Ok train
    ∧ TranslationDataset_len (dataset tl)
      = match subset_size a with
        | Some n => Z.to_nat (Z.min n (Z.of_nat (length train)))
        | None => length train
        end
    ∧ ((∀ n, subset_size a = Some n → Z.of_nat (length train) ≤ n) →
       data (dataset tl) = train).
Proof.
  intros Hshuffle Hrun.
  apply create_dataloaders_inv in Hrun as (s1 & tr & va & _ & Hbuild & Hmake).
  apply make_loaders_inv in Hmake as (b & _ & -> & -> & _ & _).
  apply load_and_build_inv in Hbuild
    as (train & val & kept & L & s_mid & Htrain & _ & _ & _ & -> & -> & _).
  exists train. simpl. unfold TranslationDataset_len. simpl.
  split_and!; [done | by apply length_training_records |].
  intros Hbig. unfold training_records.
  destruct (subset_size a) as [n|]; [|done].
  rewrite decide_False; [done|]. specialize (Hbig n eq_refl). lia.
Qed.

Lemma training_dataset_size_witness :
  ∃ train,
    load_dataset Sample.machine "bentrevett/multi30k" "train" = Ok train
    ∧ TranslationDataset_len (dataset Sample2.train_loader_subset)
      = Z.to_nat (Z.min 1 (Z.of_nat (length train)))
    ∧ ((∀ n, Some 1 = Some n → Z.of_nat (length train) ≤ n) →
       data (dataset Sample2.train_loader_subset) = train).
Proof.
  apply (training_dataset_size Sample.machine Sample2.args_subset Sample.start
           (printed Sample2.lines_subset Sample.start)
           Sample2.train_loader_subset Sample.val_loader0 Sample.loaded_tok).
  - reflexivity.
  - by vm_compute.
Defined.

Lemma training_records_subseteq (w : World) (a : Args) (train : list record) :
  (∀ sd l r, r ∈ shuffle w sd l → r ∈ l) →
  ∀ r, r ∈ training_records w a train → r ∈ train.
Proof.
  intros Hshuffle r. unfold training_records.
  destruct (subset_size a) as [n|]; [|done]. case_decide; [|done].
  intros Hr. apply subseteq_take in Hr. by eapply Hshuffle.
Qed.

Lemma de_member_mono (l1 l2 : list record) (r : record) :
  (∀ t, t ∈ l1 → t ∈ l2) → leaked l1 r → leaked l2 r.
Proof.
  intros Hsub. unfold de_member, de_sentences.
  destruct (de_text r) as [d|]; [|done].
  rewrite !elem_of_list_to_set, !list_elem_of_omap.
  intros (t & Ht & Hd). exists t. auto.
Qed.

(** X23. Taking the training subset does not bring leaks back: on rank 0,
    for a shuffle that returns records of its input only, every training
    record of the returned dataset comes from the training split, and no
    record of the validation dataset has the German text of one of them. *)
Theorem training_subset_stays_leak_free (w : World) (a : Args) (s s' : state)
    (tl vl : DataLoader) (tok : Tokenizer) :
  (∀ sd l r, r ∈ shuffle w sd l → r ∈ l) →
  rank a = 0 →
  create_dataloaders w a s = (Returned (tl, vl, tok), s') →
  (∃ train, load_dataset w (dataset_name a) "train" = Ok train
            ∧ ∀ r, r ∈ data (dataset tl) → r ∈ train)
  ∧ leak_free (data (dataset tl)) (data (dataset vl)).
Proof.
  intros Hshuffle Hrank Hrun.
  assert (is_rank0 a = true) as Hr by by apply bool_decide_true.
  apply create_dataloaders_inv in Hrun as (s1 & tr & va & _ & Hbuild & Hmake).
  apply make_loaders_inv in Hmake as (b & _ & -> & -> & _ & _).
  apply load_and_build_inv in Hbuild
    as (train & val & kept & L & s_mid & Htrain & _ & _ & Hkept & -> & -> & _).
  rewrite Hr in Hkept. destruct Hkept as (t1 & t2 & Hcheck).
  destruct (leakage_check_Returned _ _ _ _ _ Hcheck) as [Hwf1 Hwf2].
  rewrite leakage_check_run in Hcheck by done. injection Hcheck as <- _.
  simpl. split.
  - exists train. split; [done|]. by apply training_records_subseteq.
  - intros r Hr' Hleak. apply list_elem_of_filter in Hr' as [Hfree _].
    apply Hfree. eapply de_member_mono; [|done].
    by apply training_records_subseteq.
Qed.

Lemma training_subset_stays_leak_free_witness :
  (∃ train, load_dataset Sample.machine "bentrevett/multi30k" "train" = Ok train
            ∧ ∀ r, r ∈ data (dataset Sample2.train_loader_subset) → r ∈ train)
  ∧ leak_free (data (dataset Sample2.train_loader_subset))
      (data (dataset Sample.val_loader0)).
Proof.
  apply (training_subset_stays_leak_free Sample.machine Sample2.args_subset
           Sample.start (printed Sample2.lines_subset Sample.start)
           Sample2.train_loader_subset Sample.val_loader0 Sample.loaded_tok).
  - by intros sd l r.
  - reflexivity.
  - by vm_compute.
Defined.

(** X24. On rank 0 the last line that a returning call has printed states
    the sizes of the two datasets it returns, the validation size being
    the one after the leaked records were removed. *)
Theorem reported_sizes_are_returned_sizes (w : World) (a : Args)
    (s s' : state) (tl vl : DataLoader) (tok : Tokenizer) :
  rank a = 0 →
  create_dataloaders w a s = (Returned (tl, vl, tok), s') →
  last (stdout s')
  = Some (MsgUsing (TranslationDataset_len (dataset tl))
                   (TranslationDataset_len (dataset vl))).
Proof.
  intros Hrank Hrun.
  assert (is_rank0 a = true) as Hr by by apply bool_decide_true.
  apply create_dataloaders_inv in Hrun as (s1 & tr & va & _ & Hbuild & Hmake).
  apply make_loaders_inv in Hmake as (b & _ & -> & -> & _ & _).
  apply load_and_build_inv in Hbuild
    as (train & val & kept & L & s_mid & _ & _ & _ & _ & -> & -> & ->).
  rewrite Hr. unfold printed, TranslationDataset_len. simpl.
  apply last_snoc.
Qed.

Lemma reported_sizes_are_returned_sizes_witness :
  last (stdout (printed Sample.lines0 Sample.start))
  = Some (MsgUsing (TranslationDataset_len (dataset Sample.train_loader0))
                   (TranslationDataset_len (dataset Sample.val_loader0))).
Proof.
  apply (reported_sizes_are_returned_sizes Sample.machine Sample.args0
           Sample.start (printed Sample.lines0 Sample.start)
           Sample.train_loader0 Sample.val_loader0 Sample.loaded_tok).
  - reflexivity.
  - by vm_compute.
Defined.



(** ** Special tokens: patching twice, encoding *)




(** ** Encoder: stacking *)

Section EncoderStack.
Context `{Torch} `{!TorchForward}.

(** X27. Stacking composes: running an encoder whose layers are [ls1]
    followed by [ls2] is running the encoder of [ls1] and then, on its
    output and with the same mask, the encoder of [ls2]; if a layer of
    [ls1] raises, the stack raises the same exception and no later layer
    runs. *)
Theorem Encoder_forward_app (ls1 ls2 : list EncoderLayer) (x : Tensor)
    (mask : option Tensor) :
  Encoder_forward (mkEncoder (ls1 ++ ls2)) x mask
  = (y ← Encoder_forward (mkEncoder ls1) x mask;
     Encoder_forward (mkEncoder ls2) y mask)
  ∧ ∀ e, Encoder_forward (mkEncoder ls1) x mask = Raise e →
         Encoder_forward (mkEncoder (ls1 ++ ls2)) x mask = Raise e.
Proof.
  assert (∀ x, Encoder_forward (mkEncoder (ls1 ++ ls2)) x mask
               = (y ← Encoder_forward (mkEncoder ls1) x mask;
                  Encoder_forward (mkEncoder ls2) y mask)) as Happ.
  { unfold Encoder_forward. simpl. clear x.
    induction ls1 as [|l ls1 IH]; intros x; [done|]. simpl.
    destruct (EncoderLayer_forward l x mask) as [x'|e]; simpl; [|done].
    apply IH. }
  split; [apply Happ|]. intros e He. by rewrite Happ, He.
Qed.
End EncoderStack.

Lemma Encoder_forward_app_witness :
  @Encoder_forward ShapeOnly.torch ShapeOnly.forward
    (@mkEncoder ShapeOnly.torch
       ([ShapeSample.layer] ++ [ShapeSample.layer])) [4; 7; 9]%nat None
  = Raise (RuntimeError "shape mismatch").
Proof.
  apply (proj2 (@Encoder_forward_app ShapeOnly.torch ShapeOnly.forward
                  [ShapeSample.layer] [ShapeSample.layer] [4; 7; 9]%nat None)).
  reflexivity.
Defined.
